(** * assembly-ai-go: the request / poll workflow of [client/assemblyai/client.go]

    A shallow embedding of the Go client.  Go strings and byte slices are
  byte sequences, modelled as [string] (a list of 8-bit [ascii]); Go [int]
  and [time.Duration] are modelled as [Z].  The functions of the Go standard
  library that the client calls ([strconv.Itoa], [regexp], [fmt.Errorf],
  [encoding/json], [time]) are modelled in the module of their package
  name, next to the client code that uses them. *)

From Stdlib Require Import ZArith List String Ascii Bool Lia.
Import ListNotations.
Local Open Scope string_scope.
Local Open Scope Z_scope.

(** ** Bytes *)

Definition byteZ (c : ascii) : Z := Z.of_N (N_of_ascii c).

Definition inRange (lo hi : Z) (c : ascii) : bool :=
  (lo <=? byteZ c) && (byteZ c <=? hi).

Fixpoint contains (c : ascii) (s : string) : bool :=
  match s with
  | EmptyString => false
  | String a s' => Ascii.eqb a c || contains c s'
  end.

Fixpoint dropBytes (n : nat) (s : string) : string :=
  match n, s with
  | O, _ => s
  | S _, EmptyString => EmptyString
  | S n', String _ s' => dropBytes n' s'
  end.

(** ** strconv *)
Module strconv.

Definition digitChar (d : Z) : ascii := ascii_of_N (Z.to_N (48 + d)).

(** The digit loop of [formatBits]: least significant digit first, written
    in front of what is already there. *)
Fixpoint digits (fuel : nat) (u : Z) (acc : string) : string :=
  match fuel with
  | O => acc
  | S fuel' =>
      if u =? 0 then acc
      else digits fuel' (u / 10) (String (digitChar (u mod 10)) acc)
  end.

Definition formatUint (u : Z) : string :=
  if u =? 0 then "0" else digits (S (Z.to_nat (Z.log2 u))) u "".

(** [strconv.Itoa]: base 10, a leading minus sign for negative values. *)
Definition Itoa (i : Z) : string :=
  if i <? 0 then String "-" (formatUint (- i)) else formatUint i.

End strconv.

(** ** regexp

  The fragment of RE2 syntax that the client's pattern uses: a
  concatenation of the empty-width assertion [^], literal characters and
  [.] (any character but a newline).  Matching is on bytes; the subject
  strings of the client are ASCII, where bytes and runes coincide. *)
Module regexp.

Inductive inst : Type :=
| BeginText
| Char (c : ascii)
| AnyCharNotNL.

Definition Regexp := list inst.

Definition isMeta (c : ascii) : bool := contains c "\.+*?()|[]{}^$".

Fixpoint compile (pattern : string) : option Regexp :=
  match pattern with
  | EmptyString => Some []
  | String c rest =>
      match compile rest with
      | None => None
      | Some prog =>
          if Ascii.eqb c "^" then Some (BeginText :: prog)
          else if Ascii.eqb c "." then Some (AnyCharNotNL :: prog)
          else if isMeta c then None
          else Some (Char c :: prog)
      end
  end.

(** [MustCompile] panics on a pattern that does not compile; the empty
    program stands in for the panic, which the client's constant pattern
    never reaches (lemma [okStatusRegex_compiles]). *)
Definition MustCompile (pattern : string) : Regexp :=
  match compile pattern with
  | Some prog => prog
  | None => []
  end.

Definition newline : ascii := ascii_of_nat 10.

Fixpoint matchHere (prog : Regexp) (atStart : bool) (s : string) : bool :=
  match prog with
  | [] => true
  | BeginText :: prog' => atStart && matchHere prog' atStart s
  | Char c :: prog' =>
      match s with
      | EmptyString => false
      | String a s' => Ascii.eqb a c && matchHere prog' false s'
      end
  | AnyCharNotNL :: prog' =>
      match s with
      | EmptyString => false
      | String a s' => negb (Ascii.eqb a newline) && matchHere prog' false s'
      end
  end.

(** Unanchored search: a match may start at any position. *)
Fixpoint search (prog : Regexp) (atStart : bool) (s : string) : bool :=
  matchHere prog atStart s
  || match s with
     | EmptyString => false
     | String _ s' => search prog false s'
     end.

Definition MatchString (re : Regexp) (s : string) : bool := search re true s.

End regexp.

(** ** unicode/utf8 *)
Module utf8.

Definition RuneError : string :=
  String (ascii_of_nat 239) (String (ascii_of_nat 191) (String (ascii_of_nat 189) "")).

Definition isCont (c : ascii) : bool := inRange 128 191 c.

(** The table [first] with [acceptRanges]: for a leading byte, the length
    of the sequence and the range allowed for its second byte. *)
Definition first (c : ascii) : option (nat * Z * Z) :=
  let x := byteZ c in
  if x <? 194 then None
  else if x <=? 223 then Some (2%nat, 128, 191)
  else if x =? 224 then Some (3%nat, 160, 191)
  else if x =? 237 then Some (3%nat, 128, 159)
  else if x <=? 239 then Some (3%nat, 128, 191)
  else if x =? 240 then Some (4%nat, 144, 191)
  else if x <=? 243 then Some (4%nat, 128, 191)
  else if x =? 244 then Some (4%nat, 128, 143)
  else None.

(** [DecodeRuneInString] on a non-empty string: the rune, given by its
    UTF-8 encoding (what [writeRune] writes back), and its width in bytes.
    An ill-formed sequence decodes to [RuneError] of width 1. *)
Definition DecodeRuneInString (s : string) : string * nat :=
  match s with
  | EmptyString => (RuneError, 0%nat)
  | String s0 r0 =>
      if byteZ s0 <? 128 then (String s0 "", 1%nat)
      else
        match first s0, r0 with
        | Some (sz, lo, hi), String s1 r1 =>
            if negb (inRange lo hi s1) then (RuneError, 1%nat)
            else if (sz <=? 2)%nat then (String s0 (String s1 ""), 2%nat)
            else
              match r1 with
              | String s2 r2 =>
                  if negb (isCont s2) then (RuneError, 1%nat)
                  else if (sz <=? 3)%nat
                  then (String s0 (String s1 (String s2 "")), 3%nat)
                  else
                    match r2 with
                    | String s3 _ =>
                        if negb (isCont s3) then (RuneError, 1%nat)
                        else (String s0 (String s1 (String s2 (String s3 ""))), 4%nat)
                    | EmptyString => (RuneError, 1%nat)
                    end
              | EmptyString => (RuneError, 1%nat)
              end
        | _, _ => (RuneError, 1%nat)
        end
  end.

End utf8.

(** ** Errors

    Go's [error] interface, by the concrete types that reach the client. *)
Inductive error : Type :=
| errorString (s : string)
    (* errors.New and fmt.Errorf without the verb w *)
| SyntaxError
    (* *json.SyntaxError; its message and offset are not modelled *)
| UnmarshalTypeError (Value : string) (Field : string)
    (* *json.UnmarshalTypeError: the JSON kind met, the struct field *)
| ExternalError (s : string).
    (* errors of net/http, net/url and io *)

(** The method [Error()], for the errors whose message is modelled: the
    messages of the two errors of the decoder are not. *)
Definition error_Error (e : error) : option string :=
  match e with
  | errorString s => Some s
  | ExternalError s => Some s
  | SyntaxError | UnmarshalTypeError _ _ => None
  end.

Definition isDecodeError (e : error) : bool :=
  match e with
  | SyntaxError | UnmarshalTypeError _ _ => true
  | _ => false
  end.

(** ** fmt

    [doPrintf] for a call with a format and no operands, which is how
    [getData] calls [fmt.Errorf]. With no operand the flags, the width and
    the precision of a directive have no effect on what is written, but they
    are still parsed. *)
Module fmt.

Definition isDigit (c : ascii) : bool := inRange 48 57 c.

Definition tooLarge (x : Z) : bool := 1000000 <? x.

(** [parsenum] on the text between [start] and [end]: the number, whether
    there was one, and the text from [newi] on (nothing on overflow, where
    [newi] is [end]). *)
Fixpoint parsenumFrom (s : string) (num : Z) (isnum : bool) : Z * bool * string :=
  match s with
  | EmptyString => (num, isnum, EmptyString)
  | String c s' =>
      if isDigit c then
        if tooLarge num then (0, false, EmptyString)
        else parsenumFrom s' (num * 10 + (byteZ c - 48)) true
      else (num, isnum, s)
  end.

Definition parsenum (s : string) : Z * bool * string := parsenumFrom s 0 false.

(** The text up to the first closing bracket, and the text after it. *)
Fixpoint untilBracket (s : string) : option (string * string) :=
  match s with
  | EmptyString => None
  | String c s' =>
      if Ascii.eqb c "]" then Some (EmptyString, s')
      else
        match untilBracket s' with
        | Some (inner, after) => Some (String c inner, after)
        | None => None
        end
  end.

(** [parseArgNumber] on a text that starts with an opening bracket: the
    text after the index, and whether the index is a number. *)
Definition parseArgNumber (s : string) : string * bool :=
  if (String.length s <? 3)%nat then (dropBytes 1 s, false)
  else
    match untilBracket (dropBytes 1 s) with
    | None => (dropBytes 1 s, false)
    | Some (inner, after) =>
        let '(_, ok, rest) := parsenum inner in
        match rest with
        | EmptyString => (after, ok)
        | String _ _ => (after, false)
        end
    end.

(** [argNumber] with no operands: every explicit index is out of range, so
    finding one clears [goodArgNum]. Result: remaining text, [found],
    [goodArgNum]. *)
Definition argNumber (s : string) (goodArgNum : bool) : string * bool * bool :=
  match s with
  | String "[" _ => let (rest, ok) := parseArgNumber s in (rest, ok, false)
  | _ => (s, false, goodArgNum)
  end.

Definition isFlag (c : ascii) : bool := contains c "#0+- ".

Fixpoint skipFlags (s : string) : string :=
  match s with
  | EmptyString => EmptyString
  | String c s' => if isFlag c then skipFlags s' else s
  end.

(** One directive, from the byte after its percent sign: what it writes,
    and the text that follows it ([None]: the format ended inside it). *)
Definition directive (s : string) : string * option string :=
  let s := skipFlags s in
  let '(s, afterIndex, good) := argNumber s true in
  let '(out1, s, afterIndex, good) :=
    match s with
    | String "*" s' => ("%!(BADWIDTH)", s', false, good)
    | _ =>
        let '(_, widPresent, s') := parsenum s in
        (EmptyString, s', afterIndex, if afterIndex && widPresent then false else good)
    end in
  let '(out2, s, afterIndex, good) :=
    match s with
    | String "." s' =>
        let good := if afterIndex then false else good in
        let '(s', afterIndex, good) := argNumber s' good in
        match s' with
        | String "*" s'' => ("%!(BADPREC)", s'', false, good)
        | _ => let '(_, _, s'') := parsenum s' in (EmptyString, s'', afterIndex, good)
        end
    | _ => (EmptyString, s, afterIndex, good)
    end in
  let '(s, _, good) :=
    if afterIndex then (s, afterIndex, good) else argNumber s good in
  match s with
  | EmptyString => (out1 ++ out2 ++ "%!(NOVERB)", None)
  | String _ _ =>
      let (verb, size) := utf8.DecodeRuneInString s in
      let rest := dropBytes size s in
      if String.eqb verb "%" then (out1 ++ out2 ++ "%", Some rest)
      else if negb good then (out1 ++ out2 ++ "%!" ++ verb ++ "(BADINDEX)", Some rest)
      else (out1 ++ out2 ++ "%!" ++ verb ++ "(MISSING)", Some rest)
  end.

Fixpoint doPrintf (fuel : nat) (format : string) : string :=
  match fuel with
  | O => EmptyString
  | S fuel' =>
      match format with
      | EmptyString => EmptyString
      | String c rest =>
          if Ascii.eqb c "%" then
            let (out, next) := directive rest in
            match next with
            | None => out
            | Some rest' => out ++ doPrintf fuel' rest'
            end
          else String c (doPrintf fuel' rest)
      end
  end.

(** [fmt.Sprintf(format)]. Each round of the loop consumes a byte, so the
    length of the format is fuel enough. *)
Definition Sprintf (format : string) : string :=
  doPrintf (S (String.length format)) format.

(** [fmt.Errorf(format)] *)
Definition Errorf (format : string) : error := errorString (Sprintf format).

End fmt.

(** ** time *)
Module time.

(** A [Duration] is a count of nanoseconds (an int64 in Go). *)
Definition Duration := Z.

Definition Nanosecond : Duration := 1.
Definition Microsecond : Duration := 1000 * Nanosecond.
Definition Millisecond : Duration := 1000 * Microsecond.
Definition Second : Duration := 1000 * Millisecond.
Definition Minute : Duration := 60 * Second.

(** The loop of [fmtFrac]: [prec] digits of [v], trailing zeros left out. *)
Fixpoint fracDigits (prec : nat) (buf : string) (v : Z) (print : bool)
  : string * Z * bool :=
  match prec with
  | O => (buf, v, print)
  | S prec' =>
      let digit := v mod 10 in
      let print := print || negb (digit =? 0) in
      fracDigits prec'
        (if print then String (strconv.digitChar digit) buf else buf)
        (v / 10) print
  end.

Definition fmtFrac (buf : string) (v : Z) (prec : nat) : string * Z :=
  let '(buf, v, print) := fracDigits prec buf v false in
  (if print then String "." buf else buf, v).

Definition fmtInt (buf : string) (v : Z) : string :=
  if v =? 0 then String "0" buf
  else strconv.digits (S (Z.to_nat (Z.log2 v))) v buf.

(** The micro sign, U+00B5, in UTF-8. *)
Definition micro : string := String (ascii_of_nat 194) (String (ascii_of_nat 181) "").

(** [Duration.String]: the buffer is filled from its end, so every piece is
    written in front of the pieces that follow it. *)
Definition Duration_String (d : Duration) : string :=
  let u := Z.abs d in
  let neg := d <? 0 in
  let buf :=
    if u <? Second then
      if u =? 0 then "0s"
      else
        let '(prec, unit) :=
          if u <? Microsecond then (0%nat, "ns")
          else if u <? Millisecond then (3%nat, micro ++ "s")
          else (6%nat, "ms") in
        let (buf, u) := fmtFrac unit u prec in
        fmtInt buf u
    else
      let (buf, u) := fmtFrac "s" u 9 in
      let buf := fmtInt buf (u mod 60) in
      let u := u / 60 in
      if 0 <? u then
        let buf := fmtInt (String "m" buf) (u mod 60) in
        let u := u / 60 in
        if 0 <? u then fmtInt (String "h" buf) u else buf
      else buf in
  if neg then String "-" buf else buf.

(** [Time.Before] on instants counted in nanoseconds. *)
Definition Before (t u : Z) : bool := t <? u.

End time.

(** ** encoding/json *)
Module json.

(** A JSON text after scanning: string values and object keys are unquoted,
    number literals are kept as written, object members keep their order
    and their duplicates. *)
#[local] Unset Elimination Schemes.
Inductive Value : Type :=
| Null
| Bool (b : bool)
| Number (literal : string)
| Str (s : string)
| Array (elems : list Value)
| Object (members : list (string * Value)).
#[local] Set Elimination Schemes.

(** The name [UnmarshalTypeError] gives to the kind of a JSON value. *)
Definition kindOf (v : Value) : string :=
  match v with
  | Null => "null"
  | Bool _ => "bool"
  | Number _ => "number"
  | Str _ => "string"
  | Array _ => "array"
  | Object _ => "object"
  end.

Definition toUpper (c : ascii) : ascii :=
  if inRange 97 122 c then ascii_of_N (Z.to_N (byteZ c - 32)) else c.

(** Matching an object key against an ASCII field name, ignoring case.
    Besides the ASCII letters, two runes fold to an ASCII letter: U+017F
    (long s, bytes C5 BF) folds to S and U+212A (Kelvin sign, bytes E2 84 AA)
    folds to K. *)
Fixpoint equalFold (key name : string) : bool :=
  match key, name with
  | EmptyString, EmptyString => true
  | String k key', String n name' =>
      if byteZ k <? 128 then Ascii.eqb (toUpper k) (toUpper n) && equalFold key' name'
      else if byteZ k =? 197 then
        match key' with
        | String k1 key'' =>
            (byteZ k1 =? 191) && Ascii.eqb (toUpper n) "S" && equalFold key'' name'
        | EmptyString => false
        end
      else if byteZ k =? 226 then
        match key' with
        | String k1 (String k2 key'') =>
            (byteZ k1 =? 132) && (byteZ k2 =? 170) && Ascii.eqb (toUpper n) "K"
            && equalFold key'' name'
        | _ => false
        end
      else false
  | _, _ => false
  end.

(** A struct all of whose fields are strings with a [json] tag: the name of
    the tag, and how the field is read and written. *)
Record Field (T : Type) : Type := {
  name : string;
  get : T -> string;
  set : string -> T -> T
}.
Arguments name {T} _.
Arguments get {T} _ _.
Arguments set {T} _ _ _.

Class Struct (T : Type) : Type := {
  zero : T;
  fields : list (Field T)
}.

(** The field an object key is decoded into: the field of that very name,
    or else the first field whose name matches when case is ignored. *)
Definition lookupField {T} `{Struct T} (key : string) : option (Field T) :=
  match find (fun f => String.eqb key (name f)) fields with
  | Some f => Some f
  | None => find (fun f => equalFold key (name f)) fields
  end.

(** [saveError]: only the first error of a decoding is kept. *)
Definition saveError (saved : option error) (e : error) : option error :=
  match saved with
  | Some _ => saved
  | None => Some e
  end.

(** [decodeState.object] into a struct: a member whose key matches no field
    is skipped; a string is stored; [null] leaves a string field as it is;
    any other value is a type error, after which decoding goes on. *)
Fixpoint object {T} `{Struct T} (members : list (string * Value)) (v : T)
  (saved : option error) : T * option error :=
  match members with
  | [] => (v, saved)
  | (key, item) :: members' =>
      match lookupField key with
      | None => object members' v saved
      | Some f =>
          match item with
          | Str s => object members' (set f s v) saved
          | Null => object members' v saved
          | _ => object members' v
                   (saveError saved (UnmarshalTypeError (kindOf item) (name f)))
          end
      end
  end.

Section Unmarshal.

(** The scanner ([checkValid] and the unquoting of literals) is a
    parameter: [None] is a syntax error. *)
Variable scan : string -> option Value.

(** [json.Unmarshal(data, &v)] for [v] a struct at its zero value. *)
Definition Unmarshal {T} `{Struct T} (data : string) : T * option error :=
  match scan data with
  | None => (zero, Some SyntaxError)
  | Some (Object members) => object members zero None
  | Some Null => (zero, None)
  | Some item => (zero, Some (UnmarshalTypeError (kindOf item) EmptyString))
  end.

End Unmarshal.

(** *** A scanner

    The JSON grammar as [checkValid] accepts it, with the unquoting of
    string literals: the instance of [scan] used to run the client on the
    response bodies of the test suite. *)

Definition dquote : ascii := ascii_of_nat 34.
Definition backslash : ascii := ascii_of_nat 92.

Definition isSpace (c : ascii) : bool :=
  (byteZ c =? 32) || (byteZ c =? 9) || (byteZ c =? 13) || (byteZ c =? 10).

Fixpoint skipSpace (s : string) : string :=
  match s with
  | EmptyString => EmptyString
  | String c s' => if isSpace c then skipSpace s' else s
  end.

Fixpoint spanDigits (s : string) : string * string :=
  match s with
  | EmptyString => (EmptyString, EmptyString)
  | String c s' =>
      if fmt.isDigit c then let (d, rest) := spanDigits s' in (String c d, rest)
      else (EmptyString, s)
  end.

Definition hexVal (c : ascii) : option Z :=
  if inRange 48 57 c then Some (byteZ c - 48)
  else if inRange 97 102 c then Some (byteZ c - 87)
  else if inRange 65 70 c then Some (byteZ c - 55)
  else None.

(** [getu4] on the text after the two bytes of the escape. *)
Definition getu4 (s : string) : option (Z * string) :=
  match s with
  | String a (String b (String c (String d rest))) =>
      match hexVal a, hexVal b, hexVal c, hexVal d with
      | Some x, Some y, Some z, Some w => Some (((x * 16 + y) * 16 + z) * 16 + w, rest)
      | _, _, _, _ => None
      end
  | _ => None
  end.

Definition byteOf (z : Z) : ascii := ascii_of_N (Z.to_N z).

(** [utf8.EncodeRune] for a code point that is not a surrogate. *)
Definition EncodeRune (r : Z) : string :=
  if r <? 128 then String (byteOf r) ""
  else if r <? 2048 then
    String (byteOf (192 + r / 64)) (String (byteOf (128 + r mod 64)) "")
  else if r <? 65536 then
    String (byteOf (224 + r / 4096))
      (String (byteOf (128 + (r / 64) mod 64)) (String (byteOf (128 + r mod 64)) ""))
  else
    String (byteOf (240 + r / 262144))
      (String (byteOf (128 + (r / 4096) mod 64))
         (String (byteOf (128 + (r / 64) mod 64)) (String (byteOf (128 + r mod 64)) ""))).

Definition isSurrogate (r : Z) : bool := (55296 <=? r) && (r <? 57344).

Definition escaped (c : ascii) : option ascii :=
  if Ascii.eqb c dquote then Some dquote
  else if Ascii.eqb c backslash then Some backslash
  else if Ascii.eqb c "/" then Some "/"%char
  else if Ascii.eqb c "b" then Some (ascii_of_nat 8)
  else if Ascii.eqb c "f" then Some (ascii_of_nat 12)
  else if Ascii.eqb c "n" then Some (ascii_of_nat 10)
  else if Ascii.eqb c "r" then Some (ascii_of_nat 13)
  else if Ascii.eqb c "t" then Some (ascii_of_nat 9)
  else None.

Definition prepend {A} (pre : string) (r : option (string * A)) : option (string * A) :=
  match r with
  | Some (t, rest) => Some (pre ++ t, rest)
  | None => None
  end.

(** A string literal from the byte after its opening quote: the unquoted
    text (ill-formed UTF-8 and lone surrogates replaced by U+FFFD) and what
    follows the closing quote. *)
Fixpoint unquote (fuel : nat) (s : string) : option (string * string) :=
  match fuel with
  | O => None
  | S fuel' =>
      match s with
      | EmptyString => None
      | String c r =>
          if Ascii.eqb c dquote then Some (EmptyString, r)
          else if Ascii.eqb c backslash then
            match r with
            | EmptyString => None
            | String e r' =>
                if Ascii.eqb e "u" then
                  match getu4 r' with
                  | None => None
                  | Some (rr, r'') =>
                      if isSurrogate rr then
                        match r'' with
                        | String b1 (String b2 r3) =>
                            match (if Ascii.eqb b1 backslash && Ascii.eqb b2 "u"
                                   then getu4 r3 else None) with
                            | Some (rr1, r4) =>
                                if (rr <? 56320) && (56320 <=? rr1) && (rr1 <? 57344)
                                then prepend
                                       (EncodeRune (65536 + (rr - 55296) * 1024 + (rr1 - 56320)))
                                       (unquote fuel' r4)
                                else prepend utf8.RuneError (unquote fuel' r'')
                            | None => prepend utf8.RuneError (unquote fuel' r'')
                            end
                        | _ => prepend utf8.RuneError (unquote fuel' r'')
                        end
                      else prepend (EncodeRune rr) (unquote fuel' r'')
                  end
                else
                  match escaped e with
                  | Some b => prepend (String b "") (unquote fuel' r')
                  | None => None
                  end
            end
          else if byteZ c <? 32 then None
          else
            let (rune, size) := utf8.DecodeRuneInString s in
            prepend rune (unquote fuel' (dropBytes size s))
      end
  end.

(** A number literal: the literal and what follows it. *)
Definition number (s : string) : option (string * string) :=
  let (sign, s1) :=
    match s with
    | String "-" r => ("-", r)
    | _ => (EmptyString, s)
    end in
  let intPart :=
    match s1 with
    | String "0" r => Some ("0", r)
    | _ =>
        match spanDigits s1 with
        | (EmptyString, _) => None
        | (d, r) => Some (d, r)
        end
    end in
  match intPart with
  | None => None
  | Some (i, s2) =>
      let fracPart :=
        match s2 with
        | String "." r =>
            match spanDigits r with
            | (EmptyString, _) => None
            | (d, r') => Some (String "." d, r')
            end
        | _ => Some (EmptyString, s2)
        end in
      match fracPart with
      | None => None
      | Some (f, s3) =>
          let expPart :=
            match s3 with
            | String e r =>
                if Ascii.eqb e "e" || Ascii.eqb e "E" then
                  let (sg, r1) :=
                    match r with
                    | String "+" r' => ("+", r')
                    | String "-" r' => ("-", r')
                    | _ => (EmptyString, r)
                    end in
                  match spanDigits r1 with
                  | (EmptyString, _) => None
                  | (d, r2) => Some (String e (sg ++ d), r2)
                  end
                else Some (EmptyString, s3)
            | EmptyString => Some (EmptyString, s3)
            end in
          match expPart with
          | None => None
          | Some (x, s4) => Some (sign ++ i ++ f ++ x, s4)
          end
      end
  end.

Definition literal (word : string) (v : Value) (s : string) : option (Value * string) :=
  if String.prefix word s then Some (v, dropBytes (String.length word) s) else None.

(** The scanner refuses arrays and objects nested deeper than this. *)
Definition maxNestingDepth : Z := 10000.

(** [depth] counts the arrays and objects that are open around the value. *)
Fixpoint value (fuel : nat) (depth : Z) (s : string) : option (Value * string) :=
  match fuel with
  | O => None
  | S fuel' =>
      match skipSpace s with
      | EmptyString => None
      | String c r =>
          if Ascii.eqb c "{" then
            if maxNestingDepth <? depth + 1 then None
            else
              match skipSpace r with
              | String "}" r' => Some (Object [], r')
              | _ =>
                  match members fuel' (depth + 1) r with
                  | Some (ms, r') => Some (Object ms, r')
                  | None => None
                  end
              end
          else if Ascii.eqb c "[" then
            if maxNestingDepth <? depth + 1 then None
            else
              match skipSpace r with
              | String "]" r' => Some (Array [], r')
              | _ =>
                  match elements fuel' (depth + 1) r with
                  | Some (vs, r') => Some (Array vs, r')
                  | None => None
                  end
              end
          else if Ascii.eqb c dquote then
            match unquote (S (String.length r)) r with
            | Some (t, r') => Some (Str t, r')
            | None => None
            end
          else if Ascii.eqb c "n" then literal "null" Null (String c r)
          else if Ascii.eqb c "t" then literal "true" (Bool true) (String c r)
          else if Ascii.eqb c "f" then literal "false" (Bool false) (String c r)
          else
            match number (String c r) with
            | Some (n, r') => Some (Number n, r')
            | None => None
            end
      end
  end
with members (fuel : nat) (depth : Z) (s : string)
  : option (list (string * Value) * string) :=
  match fuel with
  | O => None
  | S fuel' =>
      match skipSpace s with
      | String c r =>
          if Ascii.eqb c dquote then
            match unquote (S (String.length r)) r with
            | None => None
            | Some (key, r1) =>
                match skipSpace r1 with
                | String ":" r2 =>
                    match value fuel' depth r2 with
                    | None => None
                    | Some (v, r3) =>
                        match skipSpace r3 with
                        | String "," r4 =>
                            match members fuel' depth r4 with
                            | Some (ms, r5) => Some ((key, v) :: ms, r5)
                            | None => None
                            end
                        | String "}" r4 => Some ([(key, v)], r4)
                        | _ => None
                        end
                    end
                | _ => None
                end
            end
          else None
      | EmptyString => None
      end
  end
with elements (fuel : nat) (depth : Z) (s : string) : option (list Value * string) :=
  match fuel with
  | O => None
  | S fuel' =>
      match value fuel' depth s with
      | None => None
      | Some (v, r1) =>
          match skipSpace r1 with
          | String "," r2 =>
              match elements fuel' depth r2 with
              | Some (vs, r3) => Some (v :: vs, r3)
              | None => None
              end
          | String "]" r2 => Some ([v], r2)
          | _ => None
          end
      end
  end.

Definition scanner (data : string) : option Value :=
  match value (S (2 * String.length data)) 0 data with
  | Some (v, rest) =>
      match skipSpace rest with
      | EmptyString => Some v
      | String _ _ => None
      end
  | None => None
  end.

End json.

(** ** net/textproto *)
Module textproto.

(** The bytes of a token of RFC 7230: what a header key is made of. *)
Definition validHeaderFieldByte (c : ascii) : bool :=
  inRange 48 57 c || inRange 65 90 c || inRange 97 122 c
  || contains c "!#$%&'*+-.^_`|~".

Fixpoint allValid (s : string) : bool :=
  match s with
  | EmptyString => true
  | String c s' => validHeaderFieldByte c && allValid s'
  end.

Definition toLower (c : ascii) : ascii :=
  if inRange 65 90 c then ascii_of_N (Z.to_N (byteZ c + 32)) else c.

(** Upper case for the first letter and for a letter after a dash, lower
    case for the others. *)
Fixpoint canonical (upper : bool) (s : string) : string :=
  match s with
  | EmptyString => EmptyString
  | String c s' =>
      let c := if upper then json.toUpper c else toLower c in
      String c (canonical (Ascii.eqb c "-") s')
  end.

(** [CanonicalMIMEHeaderKey]: a key with a byte that is no token byte is
    returned as it is. *)
Definition CanonicalMIMEHeaderKey (s : string) : string :=
  if allValid s then canonical true s else s.

End textproto.

(** ** net/http: requests, responses and the transport

    The transport is the external collaborator of the client. What it
    answers is given per call of [Client.Do], counted from 0, together with
    the time the call takes. *)
Module http.

Inductive Payload : Type :=
| NoBody
| Raw (content : string)              (* bytes.NewBuffer(content) *)
| Marshalled (audioUrl : string).     (* json.Marshal(TranscriptDto{AudioUrl: audioUrl}) *)

Record Request : Type := {
  Method : string;
  URL : string;
  Header : list (string * string);
  ReqBody : Payload
}.

Record Response : Type := {
  StatusCode : Z;
  Body : error + string    (* what io.ReadAll(response.Body) returns *)
}.

Record Exchange : Type := {
  elapsed : N;                  (* nanoseconds spent in the call *)
  result : error + Response
}.

Record Transport : Type := {
  (* why http.NewRequest refuses a method and URL, if it does *)
  refuses : string -> string -> option error;
  RoundTrip : nat -> Request -> Exchange
}.

Definition NewRequest (net : Transport) (method url : string) (body : Payload)
  : error + Request :=
  match refuses net method url with
  | Some err => inl err
  | None => inr {| Method := method; URL := url; Header := []; ReqBody := body |}
  end.

(** [req.Header.Set(key, value)]: the header is a map from canonical keys;
    the pairs are kept in the order the keys were first set. *)
Definition HeaderSet (key value : string) (req : Request) : Request :=
  let key := textproto.CanonicalMIMEHeaderKey key in
  {| Method := Method req;
     URL := URL req;
     Header := filter (fun kv => negb (String.eqb (fst kv) key)) (Header req)
               ++ [(key, value)];
     ReqBody := ReqBody req |}.


End http.

(** ** The client *)

Record AssemblyAImpl : Type := {
  baseUrl : string;
  token : string
}.

Record UploadLocalFileResponse : Type := {
  UploadUrl : string
}.

Record TranscriptResponse : Type := {
  Id : string;
  Status : string;
  Text : string;
  Error : string
}.

Record PollSettings : Type := {
  frequency : time.Duration;
  timeout : time.Duration
}.

Definition Err : string := "error".
Definition Queued : string := "queued".
Definition Completed : string := "completed".

#[export] Instance UploadLocalFileResponse_json : json.Struct UploadLocalFileResponse := {
  json.zero := {| UploadUrl := "" |};
  json.fields :=
    [ {| json.name := "upload_url";
         json.get := UploadUrl;
         json.set := fun s _ => {| UploadUrl := s |} |} ]
}.

#[export] Instance TranscriptResponse_json : json.Struct TranscriptResponse := {
  json.zero := {| Id := ""; Status := ""; Text := ""; Error := "" |};
  json.fields :=
    [ {| json.name := "id";
         json.get := Id;
         json.set := fun s d =>
           {| Id := s; Status := Status d; Text := Text d; Error := Error d |} |};
      {| json.name := "status";
         json.get := Status;
         json.set := fun s d =>
           {| Id := Id d; Status := s; Text := Text d; Error := Error d |} |};
      {| json.name := "text";
         json.get := Text;
         json.set := fun s d =>
           {| Id := Id d; Status := Status d; Text := s; Error := Error d |} |};
      {| json.name := "error";
         json.get := Error;
         json.set := fun s d =>
           {| Id := Id d; Status := Status d; Text := Text d; Error := s |} |} ]
}.

Definition isValidStatus (statusCode : Z) : bool :=
  let okStatusRegex := regexp.MustCompile "^2.." in
  let s := strconv.Itoa statusCode in
  regexp.MatchString okStatusRegex s.

(** The check the specification names as the equivalent mechanism. *)
Definition statusIn2xx (statusCode : Z) : bool :=
  (200 <=? statusCode) && (statusCode <? 300).

Definition getBody (response : http.Response) : error + string :=
  match http.Body response with
  | inl err => inl err
  | inr body => inr body
  end.

(** What the process has done so far: the wall clock (nanoseconds), the
    requests handed to [Client.Do] and the arguments of [time.Sleep], both
    oldest first. The clock moves in [Client.Do] and in [time.Sleep] only:
    the time the program spends between two other reads of the clock counts
    as part of the calls around them, so a run at a scale of nanoseconds is
    a run of the model only. *)
Record World : Type := {
  now : Z;
  sent : list http.Request;
  slept : list time.Duration
}.

(** What every operation returns: the string and the error ([None] is
    [nil]). *)
Definition Result : Type := string * option error.

Definition fail (err : error) : Result := (EmptyString, Some err).

(** [time.Sleep(d)]: a zero or negative duration returns at once. *)
Definition Sleep (d : time.Duration) (w : World) : World :=
  {| now := now w + Z.max 0 d; sent := sent w; slept := slept w ++ [d] |}.

Section Client.

Variable scan : string -> option json.Value.
Variable net : http.Transport.

Definition getData {T} `{json.Struct T} (response : http.Response) : error + T :=
  match getBody response with
  | inl err => inl err
  | inr body =>
      if negb (isValidStatus (http.StatusCode response)) then inl (fmt.Errorf body)
      else
        match json.Unmarshal scan body with
        | (_, Some err) => inl err
        | (data, None) => inr data
        end
  end.

(** [client.Do(req)] *)
Definition Do (req : http.Request) (w : World) : (error + http.Response) * World :=
  let x := http.RoundTrip net (List.length (sent w)) req in
  (http.result x,
   {| now := now w + Z.of_N (http.elapsed x);
      sent := sent w ++ [req];
      slept := slept w |}).

(** The request [UploadLocalFile] builds before it sends anything. *)
Definition uploadRequest (client : AssemblyAImpl) (content : string)
  : error + http.Request :=
  match http.NewRequest net "POST" (baseUrl client ++ "/upload") (http.Raw content) with
  | inl err => inl err
  | inr req =>
      let req := http.HeaderSet "Content-Type" "application/json" req in
      let req := http.HeaderSet "authorization" (token client) req in
      inr (http.HeaderSet "transfer-encoding" "chunked" req)
  end.

Definition UploadLocalFile (client : AssemblyAImpl) (content : string) (w : World)
  : Result * World :=
  match uploadRequest client content with
  | inl err => (fail err, w)
  | inr req =>
      let (resp, w) := Do req w in
      match resp with
      | inl err => (fail err, w)
      | inr resp =>
          match getData resp with
          | inl err => (fail err, w)
          | inr data => ((UploadUrl data, None), w)
          end
      end
  end.

(** The loop of [PollTranscript]. The fuel bounds the number of rounds;
    [None] means it ran out. *)
Fixpoint pollLoop (req : http.Request) (pollSettings : PollSettings)
  (timeoutTime : Z) (fuel : nat) (w : World) : option (Result * World) :=
  match fuel with
  | O => None
  | S fuel' =>
      if time.Before (now w) timeoutTime then
        let (resp, w) := Do req w in
        match resp with
        | inl err => Some (fail err, w)
        | inr resp =>
            match getData resp with
            | inl err => Some (fail err, w)
            | inr data =>
                if String.eqb (Status data) Err then
                  Some (fail (errorString (Error data)), w)
                else if String.eqb (Status data) Completed then
                  Some ((Text data, None), w)
                else if String.eqb (Status data) Queued then
                  pollLoop req pollSettings timeoutTime fuel'
                    (Sleep (frequency pollSettings) w)
                else pollLoop req pollSettings timeoutTime fuel' w
            end
        end
      else
        Some (fail (errorString ("timeout, transcription not finished in "
                                   ++ time.Duration_String (timeout pollSettings))), w)
  end.

Definition defaultPollSettings : PollSettings :=
  {| frequency := time.Second * 5; timeout := time.Minute |}.

(** The request [PollTranscript] builds once and sends in every round. *)
Definition pollRequest (client : AssemblyAImpl) (id : string) : error + http.Request :=
  match http.NewRequest net "GET" (baseUrl client ++ "/transcript/" ++ id) http.NoBody with
  | inl err => inl err
  | inr req => inr (http.HeaderSet "authorization" (token client) req)
  end.

(** A nil [pollSettings] stands for the defaults. *)
Definition orDefault (pollSettings : option PollSettings) : PollSettings :=
  match pollSettings with
  | None => defaultPollSettings
  | Some p => p
  end.

Definition PollTranscript (client : AssemblyAImpl) (id : string)
  (pollSettings : option PollSettings) (fuel : nat) (w : World)
  : option (Result * World) :=
  let pollSettings := orDefault pollSettings in
  match pollRequest client id with
  | inl err => Some (fail err, w)
  | inr req =>
      let timeoutTime := now w + timeout pollSettings in
      pollLoop req pollSettings timeoutTime fuel w
  end.

(** The request [Transcript] builds. Marshalling a struct with one string
    field cannot fail, so that error return of the source has no
    counterpart here. *)
Definition transcriptRequest (client : AssemblyAImpl) (audioUrl : string)
  : error + http.Request :=
  match http.NewRequest net "POST" (baseUrl client ++ "/transcript")
          (http.Marshalled audioUrl) with
  | inl err => inl err
  | inr req =>
      let req := http.HeaderSet "Content-Type" "application/json" req in
      inr (http.HeaderSet "authorization" (token client) req)
  end.

Definition Transcript (client : AssemblyAImpl) (audioUrl : string) (w : World)
  : Result * World :=
  match transcriptRequest client audioUrl with
  | inl err => (fail err, w)
  | inr req =>
      let (resp, w) := Do req w in
      match resp with
      | inl err => (fail err, w)
      | inr resp =>
          match getData resp with
          | inl err => (fail err, w)
          | inr data =>
              if String.eqb (Id data) "" then
                (fail (errorString "response did not include an id"), w)
              else if String.eqb (Status data) "error" then
                (fail (errorString (Error data)), w)
              else ((Id data, None), w)
          end
      end
  end.

(** The three methods of the interface [AssemblyAI], as calls. *)
Inductive Call : Type :=
| CallUploadLocalFile (content : string)
| CallTranscript (audioUrl : string)
| CallPollTranscript (id : string) (pollSettings : option PollSettings).

Definition run (client : AssemblyAImpl) (call : Call) (fuel : nat) (w : World)
  : option (Result * World) :=
  match call with
  | CallUploadLocalFile content => Some (UploadLocalFile client content w)
  | CallTranscript audioUrl => Some (Transcript client audioUrl w)
  | CallPollTranscript id pollSettings => PollTranscript client id pollSettings fuel w
  end.

(** *** Rounds of the poll loop

    [round w w'] : started in [w] before the deadline, a round of the loop
    gets a response that decodes to a status that is none of the terminal
    ones, and leaves the world [w'] to the next round. *)
Section Rounds.

Variable req : http.Request.
Variable pollSettings : PollSettings.
Variable timeoutTime : Z.

Inductive round : World -> World -> Prop :=
| round_queued : forall w resp w' data,
    time.Before (now w) timeoutTime = true ->
    Do req w = (inr resp, w') ->
    getData resp = inr data ->
    Status data = Queued ->
    round w (Sleep (frequency pollSettings) w')
| round_other : forall w resp w' data,
    time.Before (now w) timeoutTime = true ->
    Do req w = (inr resp, w') ->
    getData resp = inr data ->
    Status data <> Err ->
    Status data <> Completed ->
    Status data <> Queued ->
    round w w'.

Inductive rounds : nat -> World -> World -> Prop :=
| rounds_O : forall w, rounds O w w
| rounds_S : forall n w w1 w2,
    round w w1 -> rounds n w1 w2 -> rounds (S n) w w2.

End Rounds.

End Client.

Arguments round_queued {scan net req pollSettings timeoutTime}.
Arguments round_other {scan net req pollSettings timeoutTime}.

(** The request an operation builds before it sends anything. *)
Definition requestOf (net : http.Transport) (client : AssemblyAImpl) (call : Call)
  : error + http.Request :=
  match call with
  | CallUploadLocalFile content => uploadRequest net client content
  | CallTranscript audioUrl => transcriptRequest net client audioUrl
  | CallPollTranscript id _ => pollRequest net client id
  end.

Definition isPoll (call : Call) : bool :=
  match call with
  | CallPollTranscript _ _ => true
  | _ => false
  end.

(** ** The interface and the test double of [clientMock.go]

    A value of the interface [AssemblyAI] is the table of its three
    methods. A method takes the world and returns it, as the methods of
    the client do. *)
Module AssemblyAI.

Record t : Type := {
  UploadLocalFile : string -> World -> Result * World;
  Transcript : string -> World -> Result * World;
  PollTranscript : string -> option PollSettings -> nat -> World -> option (Result * World)
}.

End AssemblyAI.

(** [*AssemblyAImpl] as an [AssemblyAI]. *)
Definition implAssemblyAI (scan : string -> option json.Value) (net : http.Transport)
  (client : AssemblyAImpl) : AssemblyAI.t :=
  {| AssemblyAI.UploadLocalFile := UploadLocalFile scan net client;
     AssemblyAI.Transcript := Transcript scan net client;
     AssemblyAI.PollTranscript := PollTranscript scan net client |}.

Module AssemblyAIMock.

(** A [func() (string, error)] is a function from the unit type. *)
Record t : Type := {
  UploadLocalFileMock : unit -> Result;
  TranscriptMock : unit -> Result;
  PollTranscriptMock : unit -> Result
}.

Definition UploadLocalFile (client : t) (content : string) (w : World)
  : Result * World :=
  (UploadLocalFileMock client tt, w).

Definition Transcript (client : t) (audioUrl : string) (w : World) : Result * World :=
  (TranscriptMock client tt, w).

Definition PollTranscript (client : t) (id : string)
  (pollSettings : option PollSettings) (fuel : nat) (w : World)
  : option (Result * World) :=
  Some (PollTranscriptMock client tt, w).

End AssemblyAIMock.

Definition mockFunction (data : string) (err : option error) : unit -> Result :=
  fun _ => (data, err).

Definition NewMock (uploadFileUrl : string) (uploadFileError : option error)
  (transcribedText : string) (transcribedTextError : option error)
  (pollText : string) (pollError : option error) : AssemblyAI.t :=
  let client :=
    {| AssemblyAIMock.UploadLocalFileMock := mockFunction uploadFileUrl uploadFileError;
       AssemblyAIMock.TranscriptMock := mockFunction transcribedText transcribedTextError;
       AssemblyAIMock.PollTranscriptMock := mockFunction pollText pollError |} in
  {| AssemblyAI.UploadLocalFile := AssemblyAIMock.UploadLocalFile client;
     AssemblyAI.Transcript := AssemblyAIMock.Transcript client;
     AssemblyAI.PollTranscript := AssemblyAIMock.PollTranscript client |}.

(** The one field of [UploadLocalFileResponse]. *)
Definition uploadUrlField : json.Field UploadLocalFileResponse :=
  {| json.name := "upload_url";
     json.get := UploadUrl;
     json.set := fun s _ => {| UploadUrl := s |} |}.

(** Whether a value can be stored in a string field without a type error. *)
Definition storable (item : json.Value) : bool :=
  match item with
  | json.Str _ | json.Null => true
  | _ => false
  end.

(** ** Test servers

    The handlers of [client_test.go] as transports, and the bodies they
    write. In a body literal the apostrophe stands for the double quote. *)

Fixpoint body (s : string) : string :=
  match s with
  | EmptyString => EmptyString
  | String c s' => String (if Ascii.eqb c "'" then json.dquote else c) (body s')
  end.

(** The time a call to a test server on the same machine takes: a
    millisecond. *)
Definition localCall : N := 1000000.

(** A server that answers the calls in order from a script, and refuses
    the connection once the script is over. *)
Definition scripted (script : list (Z * string)) : http.Transport :=
  {| http.refuses := fun _ _ => None;
     http.RoundTrip := fun n _ =>
       {| http.elapsed := localCall;
          http.result :=
            match nth_error script n with
            | Some (code, text) =>
                inr {| http.StatusCode := code; http.Body := inr text |}
            | None => inl (ExternalError "connection refused")
            end |} |}.

(** A server with one handler: the same answer to every call, after the
    given time. *)
Definition handlerAfter (elapsed : N) (code : Z) (text : string) : http.Transport :=
  {| http.refuses := fun _ _ => None;
     http.RoundTrip := fun _ _ =>
       {| http.elapsed := elapsed;
          http.result := inr {| http.StatusCode := code; http.Body := inr text |} |} |}.

Definition handler (code : Z) (text : string) : http.Transport :=
  handlerAfter localCall code text.

(** A server across a network: a call takes 100 milliseconds. *)
Definition remoteCall : N := 100000000.

(** [n] arrays, one inside the other. *)
Fixpoint nested (n : nat) (inner : string) : string :=
  match n with
  | O => inner
  | S n' => String "[" (nested n' (String "]" inner))
  end.

Definition testClient : AssemblyAImpl :=
  {| baseUrl := "http://127.0.0.1:8080"; token := "some-token" |}.

Definition start : World := {| now := 0; sent := []; slept := [] |}.

Definition jobId : string := "5551722-f677-48a6-9287-39c0aafd9ac1".

Definition someUrl : string := "https://some-url.com/some-id".

(** The request every poll of [jobId] by [testClient] sends. *)
Definition testPollRequest : http.Request :=
  {| http.Method := "GET";
     http.URL := "http://127.0.0.1:8080/transcript/5551722-f677-48a6-9287-39c0aafd9ac1";
     http.Header := [("Authorization", "some-token")];
     http.ReqBody := http.NoBody |}.

Definition spoken : string :=
  "You know Demons on TV like that and and for people to expose themselves to being rejected on TV or humiliated by fear factor or.".

(** TestUploadLocalFile *)
Definition uploadBody : string :=
  body "{
			'upload_url': 'https://cdn.assemblyai.com/upload/f4932e0c-4f0a-40b8-8994-bdae0c0980fb'
		  }".

(** TestUploadLocalFileBadContent *)
Definition badContentBody : string := body "{'upload_url': 1}".

(** TestTranscribe and TestPollTranscribe *)
Definition completedBody : string :=
  body "{
			'id': '5551722-f677-48a6-9287-39c0aafd9ac1',
			'status': 'completed',
			'text': 'You know Demons on TV like that and and for people to expose themselves to being rejected on TV or humiliated by fear factor or.'
		}".

(** TestTranscribeError and TestPollTranscribeError *)
Definition errorBody : string :=
  body "{
			'id': '5551722-f677-48a6-9287-39c0aafd9ac1',
			'status': 'error',
			'text': 'null'
		}".

(** TestTranscribeNoId *)
Definition noIdBody : string :=
  body "{
			'status': 'error',
			'text': 'null'
		}".

(** TestPollTranscribeBadBody: a comma before the closing brace *)
Definition badBody : string :=
  body "{
			'id': '5551722-f677-48a6-9287-39c0aafd9ac1',
			'status': 'completed',
		}".

(** TestPollTranscribeTimeout and TestPollTranscribeBadHttpStatus *)
Definition queuedBody : string :=
  body "{
			'id': '5551722-f677-48a6-9287-39c0aafd9ac1',
			'status': 'queued',
			'text': 'null'
		}".

(** A job that the service has started to work on. *)
Definition processingBody : string :=
  body "{'id': '5551722-f677-48a6-9287-39c0aafd9ac1', 'status': 'processing'}".

(** A refused submission: no id, the status [error] and a reason. *)
Definition refusedBody : string :=
  body "{'status': 'error', 'error': 'audio_url is not reachable'}".

(** * Properties *)

(** ** Status validation *)

Lemma okStatusRegex_compiles :
  regexp.MustCompile "^2.."
  = [regexp.BeginText; regexp.Char "2"; regexp.AnyCharNotNL; regexp.AnyCharNotNL].
Proof. reflexivity. Qed.

Lemma search_BeginText_later (prog : regexp.Regexp) (s : string) :
  regexp.search (regexp.BeginText :: prog) false s = false.
Proof.
  induction s as [|c s IH]; simpl; [reflexivity | exact IH].
Qed.

(** The pattern looks at the first three bytes of its subject only. *)
Lemma okStatusRegex_match (s : string) :
  regexp.MatchString (regexp.MustCompile "^2..") s
  = match s with
    | String a (String b (String c _)) =>
        Ascii.eqb a "2" && (negb (Ascii.eqb b regexp.newline)
                            && (negb (Ascii.eqb c regexp.newline) && true))
    | _ => false
    end.
Proof.
  rewrite okStatusRegex_compiles. unfold regexp.MatchString.
  destruct s as [|a [|b [|c s]]]; cbn -[Ascii.eqb regexp.newline];
    rewrite ?search_BeginText_later, ?andb_false_r, ?orb_false_r; reflexivity.
Qed.

Lemma isValidStatus_negative (n : Z) : n < 0 -> isValidStatus n = false.
Proof.
  intros Hn. unfold isValidStatus. cbv zeta. rewrite okStatusRegex_match.
  unfold strconv.Itoa. destruct (Z.ltb_spec n 0) as [_|]; [|lia].
  destruct (strconv.formatUint (- n)) as [|b [|c s]]; reflexivity.
Qed.

Lemma isValidStatus_table :
  forallb (fun k => Bool.eqb (isValidStatus (Z.of_nat k)) (statusIn2xx (Z.of_nat k)))
          (seq 0 1000) = true.
Proof. vm_compute. reflexivity. Qed.

(** C7, as amended: for every status code below 1000, so for every
    three-digit HTTP status code, matching the pattern [^2..] against the
    decimal string of the code gives the same answer as the range check
    200 <= code < 300. *)
Theorem isValidStatus_below_1000 (statusCode : Z) :
  statusCode < 1000 ->
  isValidStatus statusCode = statusIn2xx statusCode.
Proof.
  intros Hlt. destruct (Z_lt_le_dec statusCode 0) as [Hneg|Hpos].
  - rewrite isValidStatus_negative by assumption.
    unfold statusIn2xx. destruct (Z.leb_spec 200 statusCode); [lia | reflexivity].
  - pose proof isValidStatus_table as Htab.
    rewrite forallb_forall in Htab.
    specialize (Htab (Z.to_nat statusCode)).
    rewrite Z2Nat.id in Htab by assumption.
    apply Bool.eqb_prop, Htab, in_seq. lia.
Qed.

Lemma isValidStatus_below_1000_witness :
  204 < 1000 /\ isValidStatus 204 = statusIn2xx 204.
Proof.
  split; [lia | apply (isValidStatus_below_1000 204); lia].
Defined.

(** C7, as stated, fails: the pattern has no end anchor, so a code of four
    digits that starts with 2 passes the check though it is not in
    [200,300). *)
Lemma isValidStatus_2000 :
  isValidStatus 2000 = true /\ ~ (200 <= 2000 < 300).
Proof. split; [reflexivity | lia]. Qed.

(** ** The response decoder *)

Lemma doPrintf_no_percent (format : string) :
  contains "%" format = false ->
  forall fuel, (String.length format < fuel)%nat -> fmt.doPrintf fuel format = format.
Proof.
  induction format as [|c format IH]; intros Hno fuel Hfuel.
  - destruct fuel; reflexivity.
  - destruct fuel as [|fuel]; [inversion Hfuel|].
    simpl in Hno. apply orb_false_elim in Hno. destruct Hno as [Hc Hrest].
    simpl. rewrite Hc. f_equal. apply IH; [assumption | simpl in Hfuel; lia].
Qed.

(** A format without a percent sign is written as it is. *)
Lemma Sprintf_no_percent (format : string) :
  contains "%" format = false -> fmt.Sprintf format = format.
Proof.
  intros Hno. unfold fmt.Sprintf. apply doPrintf_no_percent; [assumption | lia].
Qed.

Section Decoder.

Variable scan : string -> option json.Value.
Context {T : Type} `{json.Struct T}.

Lemma getData_read_error (response : http.Response) (err : error) :
  http.Body response = inl err ->
  getData scan response = inl err.
Proof.
  intros Hb. unfold getData, getBody. rewrite Hb. reflexivity.
Qed.

Lemma getData_invalid_status (response : http.Response) (text : string) :
  http.Body response = inr text ->
  isValidStatus (http.StatusCode response) = false ->
  getData scan response = inl (fmt.Errorf text).
Proof.
  intros Hb Hs. unfold getData, getBody. rewrite Hb, Hs. reflexivity.
Qed.

(** The part of the first half of C2 that the code keeps: a body without a
    percent sign becomes the message byte for byte. *)
Lemma getData_invalid_status_plain (response : http.Response) (text : string) :
  http.Body response = inr text ->
  isValidStatus (http.StatusCode response) = false ->
  contains "%" text = false ->
  getData scan response = inl (errorString text).
Proof.
  intros Hb Hs Hno. rewrite (getData_invalid_status _ _ Hb Hs).
  unfold fmt.Errorf. rewrite Sprintf_no_percent by assumption. reflexivity.
Qed.

Lemma getData_valid_status (response : http.Response) (text : string) :
  http.Body response = inr text ->
  isValidStatus (http.StatusCode response) = true ->
  getData scan response
  = match json.Unmarshal scan text with
    | (_, Some err) => inl err
    | (data, None) => inr data
    end.
Proof.
  intros Hb Hs. unfold getData, getBody. rewrite Hb, Hs. reflexivity.
Qed.

Lemma getData_decoded (response : http.Response) (text : string) (data : T) :
  http.Body response = inr text ->
  isValidStatus (http.StatusCode response) = true ->
  json.Unmarshal scan text = (data, None) ->
  getData scan response = inr data.
Proof.
  intros Hb Hs Hu. rewrite (getData_valid_status _ _ Hb Hs), Hu. reflexivity.
Qed.

(** What a successful decoding tells about the response. *)
Lemma getData_inr (response : http.Response) (data : T) :
  getData scan response = inr data ->
  isValidStatus (http.StatusCode response) = true
  /\ exists text, http.Body response = inr text
                  /\ json.Unmarshal scan text = (data, None).
Proof.
  unfold getData, getBody. destruct (http.Body response) as [err|text]; [discriminate|].
  destruct (isValidStatus (http.StatusCode response)); [|discriminate]. simpl.
  destruct (json.Unmarshal scan text) as [d [err|]] eqn:Hu; [discriminate|].
  intros Heq. injection Heq as ->. split; [reflexivity|]. exists text.
  split; [reflexivity | exact Hu].
Qed.

Lemma object_error_kind (members : list (string * json.Value)) :
  forall (v : T) (saved : option error) (err : error),
    (forall e, saved = Some e -> isDecodeError e = true) ->
    snd (json.object members v saved) = Some err ->
    isDecodeError err = true.
Proof.
  induction members as [|[key item] members IH]; intros v saved err Hsaved; simpl.
  - intros Heq. apply Hsaved. exact Heq.
  - destruct (json.lookupField key) as [f|]; [|apply IH; assumption].
    destruct item; try (apply IH; assumption);
      (apply IH; intros e He; destruct saved as [e0|]; simpl in He;
       [ apply Hsaved; exact He | injection He as <-; reflexivity ]).
Qed.

(** The second half of C2: when the body of a response with a valid status
    does not decode, the error is one of the decoder's own. *)
Lemma getData_decode_error (response : http.Response) (text : string) (err : error) :
  http.Body response = inr text ->
  isValidStatus (http.StatusCode response) = true ->
  getData scan response = inl err ->
  snd (json.Unmarshal scan text) = Some err /\ isDecodeError err = true.
Proof.
  intros Hb Hs. rewrite (getData_valid_status _ _ Hb Hs).
  unfold json.Unmarshal.
  destruct (scan text) as [[| b | n | t | l | members]|]; simpl;
    try (intros Heq; injection Heq as <-; split; reflexivity);
    try discriminate.
  destruct (json.object members json.zero None) as [d [e|]] eqn:Ho; [|discriminate].
  intros Heq. injection Heq as ->. split; [reflexivity|].
  apply (object_error_kind members json.zero None err); [discriminate|].
  rewrite Ho. reflexivity.
Qed.

End Decoder.

(** C2: the decoder is to return the raw body as the error message of a
    response whose status is not 2xx. It passes the body to [fmt.Errorf] as
    the format, so a percent sign in the body is read as a directive: for
    status 400 and the body [100%] the message is [100%!(NOVERB)], whatever
    the shape decoded into. *)
Theorem getData_body_read_as_format :
  forall (scan : string -> option json.Value) (T : Type) (S : json.Struct T),
    let response := {| http.StatusCode := 400; http.Body := inr "100%" |} in
    @getData scan T S response = inl (errorString "100%!(NOVERB)")
    /\ @getData scan T S response <> inl (errorString "100%").
Proof.
  intros scan T S response.
  assert (Hrun : @getData scan T S response = inl (errorString "100%!(NOVERB)"))
    by reflexivity.
  split; [exact Hrun|]. rewrite Hrun. discriminate.
Qed.

(** ** Submit: [Transcript] *)

Section Submit.

Variable scan : string -> option json.Value.
Variable net : http.Transport.
Variable client : AssemblyAImpl.

(** After a response has been decoded, two checks on the decoded value
    decide, in this order. *)
Lemma Transcript_decoded (audioUrl : string) (w w' : World)
  (req : http.Request) (resp : http.Response) (data : TranscriptResponse) :
  transcriptRequest net client audioUrl = inr req ->
  Do net req w = (inr resp, w') ->
  getData scan resp = inr data ->
  Transcript scan net client audioUrl w
  = (if String.eqb (Id data) "" then
       fail (errorString "response did not include an id")
     else if String.eqb (Status data) "error" then fail (errorString (Error data))
     else (Id data, None),
     w').
Proof.
  intros Hreq Hdo Hdata. unfold Transcript. rewrite Hreq, Hdo, Hdata.
  destruct (String.eqb (Id data) ""); [reflexivity|].
  destruct (String.eqb (Status data) "error"); reflexivity.
Qed.

End Submit.

(** C3: for a submit response with a 2xx status whose body decodes,
    [Transcript] returns the decoded id with no error exactly when the id is
    not empty and the status is not [error]; with an empty id it returns the
    empty string and the error [response did not include an id]; with an id
    and the status [error] it returns the empty string and an error whose
    message is the decoded error text. *)
Theorem Transcript_outcome :
  forall scan net client audioUrl w w' req resp text data,
    transcriptRequest net client audioUrl = inr req ->
    Do net req w = (inr resp, w') ->
    isValidStatus (http.StatusCode resp) = true ->
    http.Body resp = inr text ->
    json.Unmarshal scan text = (data, None) ->
    (fst (Transcript scan net client audioUrl w) = (Id data, None)
     <-> Id data <> "" /\ Status data <> "error")
    /\ (Id data = "" ->
        fst (Transcript scan net client audioUrl w)
        = ("", Some (errorString "response did not include an id")))
    /\ (Id data <> "" -> Status data = "error" ->
        fst (Transcript scan net client audioUrl w)
        = ("", Some (errorString (Error data)))).
Proof.
  intros scan net client audioUrl w w' req resp text data Hreq Hdo Hs Hb Hu.
  rewrite (Transcript_decoded scan net client audioUrl w w' req resp data Hreq Hdo
             (getData_decoded scan resp text data Hb Hs Hu)).
  simpl fst.
  destruct (String.eqb_spec (Id data) "") as [Hid|Hid];
    [|destruct (String.eqb_spec (Status data) "error") as [Hst|Hst]].
  all: split;
    [ split; [ intros Heq; try discriminate Heq | intros [Hne1 Hne2]; try contradiction ]
    | split; [ intros Hemp; try contradiction | intros Hne Herr; try contradiction ] ];
    try reflexivity; try (split; assumption).
Qed.

(** C9: when the decoded id is empty and the decoded status is [error], the
    error of [Transcript] is the missing-id error, whatever the error text
    of the service is: the check of the id comes first. *)
Theorem Transcript_empty_id_first :
  forall scan net client audioUrl w w' req resp text data,
    transcriptRequest net client audioUrl = inr req ->
    Do net req w = (inr resp, w') ->
    isValidStatus (http.StatusCode resp) = true ->
    http.Body resp = inr text ->
    json.Unmarshal scan text = (data, None) ->
    Id data = "" ->
    Status data = "error" ->
    fst (Transcript scan net client audioUrl w)
    = ("", Some (errorString "response did not include an id")).
Proof.
  intros scan net client audioUrl w w' req resp text data Hreq Hdo Hs Hb Hu Hid Hst.
  rewrite (Transcript_decoded scan net client audioUrl w w' req resp data Hreq Hdo
             (getData_decoded scan resp text data Hb Hs Hu)).
  rewrite Hid. reflexivity.
Qed.

(** ** Upload: [UploadLocalFile] *)

(** Members none of which names a field leave the struct as it was. *)
Lemma object_no_field {T} `{json.Struct T} (members : list (string * json.Value)) :
  (forall key item, In (key, item) members -> json.lookupField key = None) ->
  forall (v : T) (saved : option error), json.object members v saved = (v, saved).
Proof.
  induction members as [|[key item] members IH]; intros Hno v saved; simpl.
  - reflexivity.
  - rewrite (Hno key item) by (left; reflexivity).
    apply IH. intros k i Hin. apply (Hno k i). right. exact Hin.
Qed.

Lemma lookupField_upload_url (key : string) :
  json.equalFold key "upload_url" = false ->
  json.lookupField (T := UploadLocalFileResponse) key = None.
Proof.
  intros Hfold. unfold json.lookupField. simpl.
  destruct (String.eqb_spec key "upload_url") as [->|_].
  - discriminate Hfold.
  - rewrite Hfold. reflexivity.
Qed.

(** A body that is valid JSON but neither an object nor [null] has no
    fields at all, and the decoder refuses it with a type error. *)
Lemma UploadLocalFile_not_an_object :
  forall scan net client content w w' req resp text item,
    uploadRequest net client content = inr req ->
    Do net req w = (inr resp, w') ->
    isValidStatus (http.StatusCode resp) = true ->
    http.Body resp = inr text ->
    scan text = Some item ->
    match item with
    | json.Null | json.Object _ => False
    | _ => True
    end ->
    UploadLocalFile scan net client content w
    = (("", Some (UnmarshalTypeError (json.kindOf item) "")), w').
Proof.
  intros scan net client content w w' req resp text item Hreq Hdo Hs Hb Hscan Hkind.
  unfold UploadLocalFile. rewrite Hreq, Hdo.
  rewrite (getData_valid_status scan resp text Hb Hs).
  unfold json.Unmarshal. rewrite Hscan.
  destruct item; try contradiction; reflexivity.
Qed.

(** C10, as amended: when the body of a 2xx upload response is the JSON
    value [null], or a JSON object none of whose keys is [upload_url] when
    case is ignored, [UploadLocalFile] returns the empty string and no
    error: decoding leaves the field at its zero value. *)
Theorem UploadLocalFile_missing_field :
  forall scan net client content w w' req resp text,
    uploadRequest net client content = inr req ->
    Do net req w = (inr resp, w') ->
    isValidStatus (http.StatusCode resp) = true ->
    http.Body resp = inr text ->
    scan text = Some json.Null
    \/ (exists members,
           scan text = Some (json.Object members)
           /\ forall key item, In (key, item) members ->
                               json.equalFold key "upload_url" = false) ->
    UploadLocalFile scan net client content w = (("", None), w').
Proof.
  intros scan net client content w w' req resp text Hreq Hdo Hs Hb Hlacks.
  unfold UploadLocalFile. rewrite Hreq, Hdo.
  rewrite (getData_valid_status scan resp text Hb Hs).
  unfold json.Unmarshal.
  destruct Hlacks as [Hscan | [members [Hscan Hno]]]; rewrite Hscan; [reflexivity|].
  rewrite object_no_field; [reflexivity|].
  intros key item Hin. apply lookupField_upload_url. exact (Hno key item Hin).
Qed.

(** C10, as stated, fails: the body [[]] is valid JSON and has no field
    [upload_url], yet the upload returns a type error, since an array cannot
    be decoded into the struct. *)
Lemma UploadLocalFile_array_is_refused :
  json.scanner "[]" = Some (json.Array [])
  /\ isValidStatus 200 = true
  /\ fst (UploadLocalFile json.scanner (handler 200 "[]") testClient "" start)
     = ("", Some (UnmarshalTypeError "array" "")).
Proof. repeat split. Qed.

Lemma Transcript_outcome_witness :
  let net := handler 200 completedBody in
  let data := {| Id := jobId; Status := "completed"; Text := spoken; Error := "" |} in
  (fst (Transcript json.scanner net testClient someUrl start) = (Id data, None)
   <-> Id data <> "" /\ Status data <> "error")
  /\ (Id data = "" ->
      fst (Transcript json.scanner net testClient someUrl start)
      = ("", Some (errorString "response did not include an id")))
  /\ (Id data <> "" -> Status data = "error" ->
      fst (Transcript json.scanner net testClient someUrl start)
      = ("", Some (errorString (Error data)))).
Proof.
  intros net data.
  eapply (Transcript_outcome json.scanner net testClient someUrl start);
    [ reflexivity | reflexivity | reflexivity | reflexivity | vm_compute; reflexivity ].
Defined.

Lemma Transcript_empty_id_first_witness :
  fst (Transcript json.scanner (handler 200 refusedBody) testClient someUrl start)
  = ("", Some (errorString "response did not include an id")).
Proof.
  eapply (Transcript_empty_id_first json.scanner (handler 200 refusedBody) testClient
            someUrl start _ _ _ _
            {| Id := ""; Status := "error"; Text := "";
               Error := "audio_url is not reachable" |});
    [ reflexivity | reflexivity | reflexivity | reflexivity
    | vm_compute; reflexivity | reflexivity | reflexivity ].
Defined.

(** An answer that names other things than the upload URL. *)
Lemma UploadLocalFile_missing_field_witness :
  let text := body "{'id': 'f4932e0c', 'size': 3, 'url': null}" in
  fst (UploadLocalFile json.scanner (handler 200 text) testClient "" start) = ("", None).
Proof.
  intros text.
  erewrite (UploadLocalFile_missing_field json.scanner (handler 200 text) testClient
              "" start _ _ _ text);
    [ reflexivity | reflexivity | reflexivity | reflexivity | reflexivity | ].
  right. exists [("id", json.Str "f4932e0c"); ("size", json.Number "3"); ("url", json.Null)].
  split; [vm_compute; reflexivity|].
  intros key item [Heq | [Heq | [Heq | []]]]; injection Heq as <- _; reflexivity.
Defined.

(** ** Poll: [PollTranscript] *)

Section Poll.

Variable scan : string -> option json.Value.
Variable net : http.Transport.
Variable req : http.Request.
Variable pollSettings : PollSettings.
Variable timeoutTime : Z.

Let loop := pollLoop scan net req pollSettings timeoutTime.
Let timeoutError : error :=
  errorString ("timeout, transcription not finished in "
                 ++ time.Duration_String (timeout pollSettings)).

Lemma pollLoop_S (fuel : nat) (w : World) :
  loop (S fuel) w
  = if time.Before (now w) timeoutTime then
      match Do net req w with
      | (inl err, w') => Some (fail err, w')
      | (inr resp, w') =>
          match getData scan resp with
          | inl err => Some (fail err, w')
          | inr data =>
              if String.eqb (Status data) Err then
                Some (fail (errorString (Error data)), w')
              else if String.eqb (Status data) Completed then
                Some ((Text data, None), w')
              else if String.eqb (Status data) Queued then
                loop fuel (Sleep (frequency pollSettings) w')
              else loop fuel w'
          end
      end
    else Some (fail timeoutError, w).
Proof.
  unfold loop. simpl. destruct (time.Before (now w) timeoutTime); [|reflexivity].
  destruct (Do net req w) as [[err|resp] w']; reflexivity.
Qed.

Lemma pollLoop_deadline (fuel : nat) (w : World) :
  time.Before (now w) timeoutTime = false ->
  loop (S fuel) w = Some (fail timeoutError, w).
Proof.
  intros Hlate. rewrite pollLoop_S. rewrite Hlate. reflexivity.
Qed.

Lemma pollLoop_transport_error (fuel : nat) (w w' : World) (err : error) :
  time.Before (now w) timeoutTime = true ->
  Do net req w = (inl err, w') ->
  loop (S fuel) w = Some (fail err, w').
Proof.
  intros Hin Hdo. rewrite pollLoop_S. rewrite Hin, Hdo. reflexivity.
Qed.

Lemma pollLoop_decoder_error (fuel : nat) (w w' : World)
  (resp : http.Response) (err : error) :
  time.Before (now w) timeoutTime = true ->
  Do net req w = (inr resp, w') ->
  getData (T := TranscriptResponse) scan resp = inl err ->
  loop (S fuel) w = Some (fail err, w').
Proof.
  intros Hin Hdo Hdata. rewrite pollLoop_S. rewrite Hin, Hdo, Hdata. reflexivity.
Qed.

(** The status [error] ends the poll: no text, the error text of the
    service as the message. *)
Lemma pollLoop_status_error (fuel : nat) (w w' : World)
  (resp : http.Response) (data : TranscriptResponse) :
  time.Before (now w) timeoutTime = true ->
  Do net req w = (inr resp, w') ->
  getData scan resp = inr data ->
  Status data = Err ->
  loop (S fuel) w = Some (("", Some (errorString (Error data))), w').
Proof.
  intros Hin Hdo Hdata Hst. rewrite pollLoop_S. rewrite Hin, Hdo, Hdata, Hst.
  reflexivity.
Qed.

(** The status [completed] ends the poll with the text. *)
Lemma pollLoop_status_completed (fuel : nat) (w w' : World)
  (resp : http.Response) (data : TranscriptResponse) :
  time.Before (now w) timeoutTime = true ->
  Do net req w = (inr resp, w') ->
  getData scan resp = inr data ->
  Status data = Completed ->
  loop (S fuel) w = Some ((Text data, None), w').
Proof.
  intros Hin Hdo Hdata Hst. rewrite pollLoop_S. rewrite Hin, Hdo, Hdata, Hst.
  reflexivity.
Qed.

(** The status [queued] sleeps for the frequency, then polls again. *)
Lemma pollLoop_status_queued (fuel : nat) (w w' : World)
  (resp : http.Response) (data : TranscriptResponse) :
  time.Before (now w) timeoutTime = true ->
  Do net req w = (inr resp, w') ->
  getData scan resp = inr data ->
  Status data = Queued ->
  loop (S fuel) w = loop fuel (Sleep (frequency pollSettings) w').
Proof.
  intros Hin Hdo Hdata Hst. rewrite pollLoop_S. rewrite Hin, Hdo, Hdata, Hst.
  reflexivity.
Qed.

(** Any other status polls again at once: no case of the switch applies,
    and only the case of [queued] sleeps. *)
Lemma pollLoop_status_other (fuel : nat) (w w' : World)
  (resp : http.Response) (data : TranscriptResponse) :
  time.Before (now w) timeoutTime = true ->
  Do net req w = (inr resp, w') ->
  getData scan resp = inr data ->
  Status data <> Err ->
  Status data <> Completed ->
  Status data <> Queued ->
  loop (S fuel) w = loop fuel w'.
Proof.
  intros Hin Hdo Hdata He Hc Hq. rewrite pollLoop_S. rewrite Hin, Hdo, Hdata.
  destruct (String.eqb_spec (Status data) Err); [contradiction|].
  destruct (String.eqb_spec (Status data) Completed); [contradiction|].
  destruct (String.eqb_spec (Status data) Queued); [contradiction|].
  reflexivity.
Qed.

Lemma pollLoop_round (fuel : nat) (w w1 : World) :
  round scan net req pollSettings timeoutTime w w1 ->
  loop (S fuel) w = loop fuel w1.
Proof.
  intros Hround. destruct Hround as [w resp w' data Hin Hdo Hdata Hst
                                    | w resp w' data Hin Hdo Hdata He Hc Hq].
  - eapply pollLoop_status_queued; eassumption.
  - eapply pollLoop_status_other; eassumption.
Qed.

Lemma pollLoop_rounds (n : nat) (w w1 : World) :
  rounds scan net req pollSettings timeoutTime n w w1 ->
  forall fuel, loop (n + fuel) w = loop fuel w1.
Proof.
  induction 1 as [w | n w w1 w2 Hround _ IH]; intros fuel.
  - reflexivity.
  - change (S n + fuel)%nat with (S (n + fuel)).
    rewrite (pollLoop_round _ _ _ Hround). apply IH.
Qed.

(** Every run of the loop that returns is a number of rounds that went on,
    followed by one round that returns by itself. *)
Lemma pollLoop_inv (fuel : nat) :
  forall (w0 wf : World) (r : Result),
    loop fuel w0 = Some (r, wf) ->
    exists n w,
      (n < fuel)%nat
      /\ rounds scan net req pollSettings timeoutTime n w0 w
      /\ loop 1 w = Some (r, wf).
Proof.
  induction fuel as [|fuel IH]; intros w0 wf r Hrun; [discriminate|].
  assert (Hlast : loop 1 w0 = Some (r, wf) ->
                  exists n w, (n < S fuel)%nat
                              /\ rounds scan net req pollSettings timeoutTime n w0 w
                              /\ loop 1 w = Some (r, wf)).
  { intros H1. exists O, w0. split; [lia|]. split; [constructor | exact H1]. }
  assert (Hmore : forall w1,
             round scan net req pollSettings timeoutTime w0 w1 ->
             loop fuel w1 = Some (r, wf) ->
             exists n w, (n < S fuel)%nat
                         /\ rounds scan net req pollSettings timeoutTime n w0 w
                         /\ loop 1 w = Some (r, wf)).
  { intros w1 Hround H1. destruct (IH w1 wf r H1) as [n [w [Hn [Hrs Hret]]]].
    exists (S n), w. split; [lia|]. split; [|exact Hret].
    econstructor; eassumption. }
  rewrite pollLoop_S in Hrun. rewrite pollLoop_S in Hlast.
  destruct (time.Before (now w0) timeoutTime) eqn:Hin; [|auto].
  destruct (Do net req w0) as [[err|resp] w'] eqn:Hdo; [auto|].
  destruct (getData scan resp) as [err|data] eqn:Hdata; [auto|].
  destruct (String.eqb_spec (Status data) Err) as [He|He]; [auto|].
  destruct (String.eqb_spec (Status data) Completed) as [Hc|Hc]; [auto|].
  destruct (String.eqb_spec (Status data) Queued) as [Hq|Hq].
  - apply (Hmore (Sleep (frequency pollSettings) w')); [|exact Hrun].
    eapply round_queued; eassumption.
  - apply (Hmore w'); [|exact Hrun].
    eapply round_other; eassumption.
Qed.

Lemma Do_sent (w w' : World) (r : error + http.Response) :
  Do net req w = (r, w') ->
  sent w' = (sent w ++ [req])%list /\ slept w' = slept w /\ now w <= now w'.
Proof.
  unfold Do. intros Heq. injection Heq as _ <-. simpl. repeat split. lia.
Qed.

(** Whatever the loop returns with an error, it returns with no text. *)
Lemma pollLoop_error_empty (fuel : nat) :
  forall (w w' : World) (s : string) (err : error),
    loop fuel w = Some ((s, Some err), w') -> s = "".
Proof.
  induction fuel as [|fuel IH]; intros w w' s err.
  - discriminate.
  - rewrite pollLoop_S. destruct (time.Before (now w) timeoutTime).
    + destruct (Do net req w) as [[e|resp] w1].
      * intros Heq. injection Heq as <- _ _. reflexivity.
      * destruct (getData scan resp) as [e|data].
        -- intros Heq. injection Heq as <- _ _. reflexivity.
        -- destruct (String.eqb (Status data) Err).
           ++ intros Heq. injection Heq as <- _ _. reflexivity.
           ++ destruct (String.eqb (Status data) Completed); [discriminate|].
              destruct (String.eqb (Status data) Queued); apply IH.
    + intros Heq. injection Heq as <- _ _. reflexivity.
Qed.

(** The loop returns: when every call of the transport takes time, the
    clock passes the deadline after at most as many rounds as there are
    nanoseconds left. *)
Lemma pollLoop_terminates :
  (forall n r, (0 < http.elapsed (http.RoundTrip net n r))%N) ->
  forall (fuel : nat) (w : World),
    (Z.to_nat (timeoutTime - now w) < fuel)%nat ->
    exists r w', loop fuel w = Some (r, w').
Proof.
  intros Hslow.
  induction fuel as [|fuel IH]; intros w Hfuel; [inversion Hfuel|].
  rewrite pollLoop_S.
  unfold time.Before. destruct (Z.ltb_spec (now w) timeoutTime) as [Hin|Hlate].
  - assert (Hnext : forall d,
               (Z.to_nat (timeoutTime
                          - now (Sleep d (snd (Do net req w)))) < fuel)%nat
               /\ (Z.to_nat (timeoutTime - now (snd (Do net req w))) < fuel)%nat).
    { intros d. unfold Do, Sleep. simpl.
      specialize (Hslow (List.length (sent w)) req). lia. }
    destruct (Do net req w) as [[e|resp] w1]; [eauto|].
    destruct (getData scan resp) as [e|data]; [eauto|].
    destruct (String.eqb (Status data) Err); [eauto|].
    destruct (String.eqb (Status data) Completed); [eauto|].
    destruct (String.eqb (Status data) Queued); apply IH.
    + apply (Hnext (frequency pollSettings)).
    + apply (Hnext 0).
  - eauto.
Qed.

End Poll.

Lemma PollTranscript_loop scan net client id pollSettings req :
  pollRequest net client id = inr req ->
  forall fuel w,
    PollTranscript scan net client id pollSettings fuel w
    = pollLoop scan net req (orDefault pollSettings)
        (now w + timeout (orDefault pollSettings)) fuel w.
Proof.
  intros Hreq fuel w. unfold PollTranscript. rewrite Hreq. reflexivity.
Qed.

(** With a transport whose calls take time, [PollTranscript] returns. *)
Theorem PollTranscript_terminates :
  forall scan net client id pollSettings w,
    (forall n r, (0 < http.elapsed (http.RoundTrip net n r))%N) ->
    forall fuel,
      (Z.to_nat (timeout (orDefault pollSettings)) < fuel)%nat ->
      exists r w', PollTranscript scan net client id pollSettings fuel w = Some (r, w').
Proof.
  intros scan net client id pollSettings w Hslow fuel Hfuel.
  destruct (pollRequest net client id) as [err|req] eqn:Hreq.
  - unfold PollTranscript. rewrite Hreq. eauto.
  - rewrite (PollTranscript_loop scan net client id pollSettings req Hreq).
    apply pollLoop_terminates; [exact Hslow|].
    replace (now w + timeout (orDefault pollSettings) - now w)
      with (timeout (orDefault pollSettings)) by lia.
    exact Hfuel.
Qed.

(** A round whose response the decoder refuses ends the poll with the
    error of the decoder. *)
Lemma PollTranscript_decoder_error :
  forall scan net client id pollSettings req n w0 w w' resp err,
    pollRequest net client id = inr req ->
    rounds scan net req (orDefault pollSettings)
      (now w0 + timeout (orDefault pollSettings)) n w0 w ->
    time.Before (now w) (now w0 + timeout (orDefault pollSettings)) = true ->
    Do net req w = (inr resp, w') ->
    getData (T := TranscriptResponse) scan resp = inl err ->
    (forall fuel,
        PollTranscript scan net client id pollSettings (S n + fuel) w0
        = Some (("", Some err), w'))
    /\ sent w' = (sent w ++ [req])%list
    /\ slept w' = slept w.
Proof.
  intros scan net client id pollSettings req n w0 w w' resp err
         Hreq Hrounds Hin Hdo Herr.
  destruct (Do_sent net req w w' _ Hdo) as [Hsent [Hslept _]].
  repeat split; try assumption.
  intros fuel. rewrite (PollTranscript_loop scan net client id pollSettings req Hreq).
  replace (S n + fuel)%nat with (n + S fuel)%nat by lia.
  rewrite (pollLoop_rounds _ _ _ _ _ _ _ _ Hrounds).
  eapply pollLoop_decoder_error; eassumption.
Qed.

(** Below 1000 the status check rejects every code outside [200,300). *)
Lemma isValidStatus_rejects (statusCode : Z) :
  statusCode < 1000 ->
  statusIn2xx statusCode = false ->
  isValidStatus statusCode = false.
Proof.
  intros Hlt Hout. destruct (Z_lt_le_dec statusCode 0) as [Hneg|Hpos].
  - apply isValidStatus_negative, Hneg.
  - pose proof isValidStatus_table as Htab.
    rewrite forallb_forall in Htab.
    specialize (Htab (Z.to_nat statusCode)).
    rewrite Z2Nat.id in Htab by assumption.
    rewrite <- Hout. apply Bool.eqb_prop, Htab, in_seq. lia.
Qed.

(** C4, as amended: when, after any number of rounds that went on, a round
    gets a response whose status code is below 1000 and outside [200,300),
    or whose body does not decode, [PollTranscript] returns the empty string
    and the error of the decoder. The world it returns in is the one that
    the failing call left: that request is the last one sent and no sleep
    follows it. The time left until the deadline plays no part. *)
Theorem PollTranscript_aborts_on_bad_response :
  forall scan net client id pollSettings req n w0 w w' resp text,
    pollRequest net client id = inr req ->
    rounds scan net req (orDefault pollSettings)
      (now w0 + timeout (orDefault pollSettings)) n w0 w ->
    time.Before (now w) (now w0 + timeout (orDefault pollSettings)) = true ->
    Do net req w = (inr resp, w') ->
    http.Body resp = inr text ->
    (http.StatusCode resp < 1000 /\ statusIn2xx (http.StatusCode resp) = false)
    \/ snd (json.Unmarshal (T := TranscriptResponse) scan text) <> None ->
    exists err,
      getData (T := TranscriptResponse) scan resp = inl err
      /\ (forall fuel,
             PollTranscript scan net client id pollSettings (S n + fuel) w0
             = Some (("", Some err), w'))
      /\ sent w' = (sent w ++ [req])%list
      /\ slept w' = slept w.
Proof.
  intros scan net client id pollSettings req n w0 w w' resp text
         Hreq Hrounds Hin Hdo Hbody Hbad.
  assert (Hfail : exists err, getData (T := TranscriptResponse) scan resp = inl err).
  { destruct (isValidStatus (http.StatusCode resp)) eqn:Hs.
    - rewrite (getData_valid_status scan resp text Hbody Hs).
      destruct Hbad as [[Hlt Hout]|Hbad].
      + rewrite (isValidStatus_rejects _ Hlt Hout) in Hs. discriminate.
      + destruct (json.Unmarshal scan text) as [d [e|]]; [eauto|].
        exfalso. apply Hbad. reflexivity.
    - rewrite (getData_invalid_status scan resp text Hbody Hs). eauto. }
  destruct Hfail as [err Herr]. exists err. split; [exact Herr|].
  exact (PollTranscript_decoder_error scan net client id pollSettings req n w0 w w'
           resp err Hreq Hrounds Hin Hdo Herr).
Qed.

(** C5: when the rounds go on, none of them reaching a terminal status or
    failing, until a round starts at or after the deadline (the start plus
    the timeout), [PollTranscript] returns the empty string and the error
    whose message ends with the timeout as [Duration.String] prints it. *)
Theorem PollTranscript_timeout :
  forall scan net client id pollSettings req n w0 w,
    pollRequest net client id = inr req ->
    rounds scan net req (orDefault pollSettings)
      (now w0 + timeout (orDefault pollSettings)) n w0 w ->
    time.Before (now w) (now w0 + timeout (orDefault pollSettings)) = false ->
    forall fuel,
      PollTranscript scan net client id pollSettings (S n + fuel) w0
      = Some (("", Some (errorString
                           ("timeout, transcription not finished in "
                              ++ time.Duration_String (timeout (orDefault pollSettings))))),
              w).
Proof.
  intros scan net client id pollSettings req n w0 w Hreq Hrounds Hlate fuel.
  rewrite (PollTranscript_loop scan net client id pollSettings req Hreq).
  replace (S n + fuel)%nat with (n + S fuel)%nat by lia.
  rewrite (pollLoop_rounds _ _ _ _ _ _ _ _ Hrounds).
  apply pollLoop_deadline. exact Hlate.
Qed.

(** Running one round on a concrete transport. *)
Ltac run_queued_round :=
  eapply rounds_S;
  [ eapply round_queued; [ reflexivity | reflexivity | reflexivity | reflexivity ] | ].

Lemma PollTranscript_aborts_on_bad_response_witness :
  let net := scripted [(200, queuedBody); (500, "Internal Server Error")] in
  let pollSettings := Some {| frequency := 0; timeout := time.Second |} in
  exists err w',
    (forall fuel,
        PollTranscript json.scanner net testClient jobId pollSettings (2 + fuel) start
        = Some (("", Some err), w'))
    /\ err = errorString "Internal Server Error"
    /\ sent w' = [testPollRequest; testPollRequest]
    /\ slept w' = [0].
Proof.
  intros net pollSettings.
  edestruct (PollTranscript_aborts_on_bad_response
               json.scanner net testClient jobId pollSettings testPollRequest 1 start)
    as [err [Hdata [Hrun [Hsent Hslept]]]].
  - reflexivity.
  - run_queued_round. apply rounds_O.
  - reflexivity.
  - reflexivity.
  - reflexivity.
  - left. split; [simpl; lia | reflexivity].
  - exists err. eexists. split; [exact Hrun|].
    split; [|split; [exact Hsent | exact Hslept]].
    injection Hdata as <-. reflexivity.
Defined.

(** C4, as stated, fails: the status code 2000 is not a 2xx code, yet it
    passes the status check. A poll that receives it with a body that says
    [queued] does not return an error: it sleeps, sends a second request
    and returns the text that one brings. *)
Lemma PollTranscript_status_2000_goes_on :
  PollTranscript json.scanner (scripted [(2000, queuedBody); (200, completedBody)])
    testClient jobId None 2 start
  = Some ((spoken, None),
          {| now := 5002000000;
             sent := [testPollRequest; testPollRequest];
             slept := [5000000000] |})
  /\ ~ (200 <= 2000 < 300).
Proof. split; [vm_compute; reflexivity | lia]. Qed.

(** TestPollTranscribeTimeout against a server 100 milliseconds away, with
    a timeout of 250 milliseconds: three requests, then the deadline. *)
Lemma PollTranscript_timeout_witness :
  let net := handlerAfter remoteCall 200 queuedBody in
  let pollSettings := Some {| frequency := 0; timeout := 250 * time.Millisecond |} in
  exists w,
    PollTranscript json.scanner net testClient jobId pollSettings 4 start
    = Some (("", Some (errorString "timeout, transcription not finished in 250ms")), w)
    /\ sent w = [testPollRequest; testPollRequest; testPollRequest]
    /\ now w = 300 * time.Millisecond.
Proof.
  intros net pollSettings. eexists. split.
  - apply (PollTranscript_timeout json.scanner net testClient jobId pollSettings
             testPollRequest 3 start _ eq_refl).
    + run_queued_round. run_queued_round. run_queued_round. apply rounds_O.
    + reflexivity.
  - split; reflexivity.
Defined.

(** C6: the transport answers the next three calls with [queued], [queued]
    and [completed] with a text; the frequency is 0 and the deadline is not
    reached before the third call. Then [PollTranscript] returns the text
    with no error, after three requests and exactly two sleeps. *)
Theorem PollTranscript_queued_queued_completed :
  forall scan net client id pollSettings req w0 e0 e1 e2 r0 r1 r2 d0 d1 d2,
    pollRequest net client id = inr req ->
    frequency pollSettings = 0 ->
    http.RoundTrip net (List.length (sent w0)) req
    = {| http.elapsed := e0; http.result := inr r0 |} ->
    http.RoundTrip net (S (List.length (sent w0))) req
    = {| http.elapsed := e1; http.result := inr r1 |} ->
    http.RoundTrip net (S (S (List.length (sent w0)))) req
    = {| http.elapsed := e2; http.result := inr r2 |} ->
    getData scan r0 = inr d0 -> Status d0 = Queued ->
    getData scan r1 = inr d1 -> Status d1 = Queued ->
    getData scan r2 = inr d2 -> Status d2 = Completed ->
    Z.of_N e0 + Z.of_N e1 < timeout pollSettings ->
    forall fuel,
    exists w',
      PollTranscript scan net client id (Some pollSettings) (3 + fuel) w0
      = Some ((Text d2, None), w')
      /\ slept w' = (slept w0 ++ [0; 0])%list
      /\ sent w' = (sent w0 ++ [req; req; req])%list.
Proof.
  intros scan net client id pollSettings req w0 e0 e1 e2 r0 r1 r2 d0 d1 d2
         Hreq Hfreq H0 H1 H2 Hd0 Hq0 Hd1 Hq1 Hd2 Hc2 Hbudget fuel.
  set (deadline := now w0 + timeout pollSettings).
  set (a0 := {| now := now w0 + Z.of_N e0;
                sent := (sent w0 ++ [req])%list; slept := slept w0 |}).
  set (w1 := Sleep (frequency pollSettings) a0).
  set (a1 := {| now := now w1 + Z.of_N e1;
                sent := (sent w1 ++ [req])%list; slept := slept w1 |}).
  set (w2 := Sleep (frequency pollSettings) a1).
  set (a2 := {| now := now w2 + Z.of_N e2;
                sent := (sent w2 ++ [req])%list; slept := slept w2 |}).
  assert (Hdo0 : Do net req w0 = (inr r0, a0)).
  { unfold Do. rewrite H0. reflexivity. }
  assert (Hdo1 : Do net req w1 = (inr r1, a1)).
  { unfold Do. replace (List.length (sent w1)) with (S (List.length (sent w0))).
    - rewrite H1. reflexivity.
    - simpl. rewrite length_app. simpl. lia. }
  assert (Hdo2 : Do net req w2 = (inr r2, a2)).
  { unfold Do. replace (List.length (sent w2)) with (S (S (List.length (sent w0)))).
    - rewrite H2. reflexivity.
    - simpl. rewrite !length_app. simpl. lia. }
  assert (Hin0 : time.Before (now w0) deadline = true).
  { unfold time.Before, deadline. apply Z.ltb_lt. lia. }
  assert (Hin1 : time.Before (now w1) deadline = true).
  { unfold time.Before, deadline. apply Z.ltb_lt. simpl. rewrite Hfreq. lia. }
  assert (Hin2 : time.Before (now w2) deadline = true).
  { unfold time.Before, deadline. apply Z.ltb_lt. simpl. rewrite Hfreq. lia. }
  assert (Hrounds : rounds scan net req pollSettings deadline 2 w0 w2).
  { eapply rounds_S; [exact (round_queued w0 r0 a0 d0 Hin0 Hdo0 Hd0 Hq0)|].
    eapply rounds_S; [exact (round_queued w1 r1 a1 d1 Hin1 Hdo1 Hd1 Hq1)|].
    apply rounds_O. }
  exists a2. split; [|split].
  - rewrite (PollTranscript_loop scan net client id (Some pollSettings) req Hreq).
    simpl orDefault. fold deadline.
    change (3 + fuel)%nat with (2 + S fuel)%nat.
    rewrite (pollLoop_rounds _ _ _ _ _ _ _ _ Hrounds).
    eapply pollLoop_status_completed; eassumption.
  - simpl. rewrite Hfreq, <- app_assoc. reflexivity.
  - simpl. rewrite <- !app_assoc. reflexivity.
Qed.

Lemma PollTranscript_queued_queued_completed_witness :
  let net := scripted [(200, queuedBody); (200, queuedBody); (200, completedBody)] in
  let pollSettings := {| frequency := 0; timeout := time.Second |} in
  exists w',
    PollTranscript json.scanner net testClient jobId (Some pollSettings) 3 start
    = Some ((spoken, None), w')
    /\ slept w' = [0; 0]
    /\ sent w' = [testPollRequest; testPollRequest; testPollRequest].
Proof.
  intros net pollSettings.
  refine (PollTranscript_queued_queued_completed json.scanner net testClient jobId
            pollSettings testPollRequest start localCall localCall localCall
            {| http.StatusCode := 200; http.Body := inr queuedBody |}
            {| http.StatusCode := 200; http.Body := inr queuedBody |}
            {| http.StatusCode := 200; http.Body := inr completedBody |}
            {| Id := jobId; Status := "queued"; Text := "null"; Error := "" |}
            {| Id := jobId; Status := "queued"; Text := "null"; Error := "" |}
            {| Id := jobId; Status := "completed"; Text := spoken; Error := "" |}
            eq_refl eq_refl eq_refl eq_refl eq_refl _ eq_refl _ eq_refl _ eq_refl _ 0%nat);
    [ vm_compute; reflexivity | vm_compute; reflexivity | vm_compute; reflexivity
    | vm_compute; reflexivity ].
Defined.

(** ** Errors come with no result *)

(** C8: whenever one of the three operations returns an error, the string
    it returns with it is empty. *)
Theorem error_with_empty_result :
  forall scan net client call fuel w s err w',
    run scan net client call fuel w = Some ((s, Some err), w') ->
    s = "".
Proof.
  intros scan net client call fuel w s err w'.
  destruct call as [content | audioUrl | id pollSettings]; simpl.
  - unfold UploadLocalFile.
    destruct (uploadRequest net client content) as [e|req].
    + intros Heq. injection Heq as <- _ _. reflexivity.
    + destruct (Do net req w) as [[e|resp] w1].
      * intros Heq. injection Heq as <- _ _. reflexivity.
      * destruct (getData scan resp) as [e|data]; [|discriminate].
        intros Heq. injection Heq as <- _ _. reflexivity.
  - unfold Transcript.
    destruct (transcriptRequest net client audioUrl) as [e|req].
    + intros Heq. injection Heq as <- _ _. reflexivity.
    + destruct (Do net req w) as [[e|resp] w1].
      * intros Heq. injection Heq as <- _ _. reflexivity.
      * destruct (getData scan resp) as [e|data].
        -- intros Heq. injection Heq as <- _ _. reflexivity.
        -- destruct (String.eqb (Id data) "").
           ++ intros Heq. injection Heq as <- _ _. reflexivity.
           ++ destruct (String.eqb (Status data) "error"); [|discriminate].
              intros Heq. injection Heq as <- _ _. reflexivity.
  - unfold PollTranscript.
    destruct (pollRequest net client id) as [e|req].
    + intros Heq. injection Heq as <- _ _. reflexivity.
    + apply pollLoop_error_empty.
Qed.

Lemma error_with_empty_result_witness :
  fst (fst (UploadLocalFile json.scanner (handler 400 "{}") testClient "" start)) = "".
Proof.
  eapply (error_with_empty_result json.scanner (handler 400 "{}") testClient
            (CallUploadLocalFile "") 0 start _ (errorString "{}") _).
  reflexivity.
Defined.

(** ** A status that is neither terminal nor [queued] *)

(** C1: the claim has every status other than [error] and [completed]
    sleep for the frequency before the next poll. The switch sleeps in the
    case of [queued] only. Against a server 100 milliseconds away that
    answers [processing], with a frequency of 5 seconds and a timeout of 250
    milliseconds, the client sends three requests, one after the other, and
    never sleeps; with a sleep after the first response there would be one
    request. *)
Theorem PollTranscript_processing_no_sleep :
  PollTranscript json.scanner (handlerAfter remoteCall 200 processingBody) testClient
    jobId (Some {| frequency := time.Second * 5; timeout := 250 * time.Millisecond |})
    4 start
  = Some (("", Some (errorString "timeout, transcription not finished in 250ms")),
          {| now := 300 * time.Millisecond;
             sent := [testPollRequest; testPollRequest; testPollRequest];
             slept := [] |}).
Proof. vm_compute. reflexivity. Qed.

(** The same server and settings with the status [queued]: one request,
    one sleep of 5 seconds. *)
Example PollTranscript_queued_sleeps :
  PollTranscript json.scanner (handlerAfter remoteCall 200 queuedBody) testClient
    jobId (Some {| frequency := time.Second * 5; timeout := 250 * time.Millisecond |})
    4 start
  = Some (("", Some (errorString "timeout, transcription not finished in 250ms")),
          {| now := 5100 * time.Millisecond;
             sent := [testPollRequest];
             slept := [time.Second * 5] |}).
Proof. vm_compute. reflexivity. Qed.

(** ** The library models on known values *)

Example Itoa_200 : strconv.Itoa 200 = "200".
Proof. reflexivity. Qed.

Example Itoa_negative : strconv.Itoa (-45) = "-45".
Proof. reflexivity. Qed.

Example isValidStatus_204 : isValidStatus 204 = true.
Proof. reflexivity. Qed.

Example isValidStatus_404 : isValidStatus 404 = false.
Proof. reflexivity. Qed.

Example isValidStatus_20 : isValidStatus 20 = false.
Proof. reflexivity. Qed.

Example Sprintf_escaped_percent : fmt.Sprintf "100%% sure" = "100% sure".
Proof. reflexivity. Qed.

Example Sprintf_missing_operand :
  fmt.Sprintf "quota: 100% of limit" = "quota: 100%!o(MISSING)f limit".
Proof. reflexivity. Qed.

Example Sprintf_bad_index : fmt.Sprintf "%[1]d" = "%!d(BADINDEX)".
Proof. reflexivity. Qed.

Example Duration_String_minute : time.Duration_String time.Minute = "1m0s".
Proof. reflexivity. Qed.

Example Duration_String_millisecond : time.Duration_String time.Millisecond = "1ms".
Proof. reflexivity. Qed.

Example Duration_String_fraction : time.Duration_String 1500000000 = "1.5s".
Proof. reflexivity. Qed.

Example equalFold_case : json.equalFold "Upload_URL" "upload_url" = true.
Proof. reflexivity. Qed.

Example scanner_trailing_comma : json.scanner badBody = None.
Proof. reflexivity. Qed.

Example scanner_empty_input : json.scanner "" = None.
Proof. reflexivity. Qed.

Example scanner_nesting_depth :
  match json.scanner (nested (Z.to_nat 10000) "") with
  | Some _ => true
  | None => false
  end = true
  /\ json.scanner (nested (Z.to_nat 10001) "") = None.
Proof. split; vm_compute; reflexivity. Qed.

(** ** The test suite of [client_test.go] *)

Example TestUploadLocalFile :
  fst (UploadLocalFile json.scanner (handler 200 uploadBody) testClient "" start)
  = ("https://cdn.assemblyai.com/upload/f4932e0c-4f0a-40b8-8994-bdae0c0980fb", None).
Proof. vm_compute. reflexivity. Qed.

Example TestUploadLocalFileBadRequest :
  fst (UploadLocalFile json.scanner (handler 400 "{}") testClient "" start)
  = ("", Some (errorString "{}")).
Proof. vm_compute. reflexivity. Qed.

Example TestUploadLocalFileBadContent :
  fst (UploadLocalFile json.scanner (handler 200 badContentBody) testClient "" start)
  = ("", Some (UnmarshalTypeError "number" "upload_url")).
Proof. vm_compute. reflexivity. Qed.

Example TestTranscribe :
  fst (Transcript json.scanner (handler 200 completedBody) testClient someUrl start)
  = (jobId, None).
Proof. vm_compute. reflexivity. Qed.

Example TestTranscribeError :
  fst (Transcript json.scanner (handler 200 errorBody) testClient someUrl start)
  = ("", Some (errorString "")).
Proof. vm_compute. reflexivity. Qed.

Example TestTranscribeBadBody :
  fst (Transcript json.scanner (handler 200 "") testClient someUrl start)
  = ("", Some SyntaxError).
Proof. vm_compute. reflexivity. Qed.

Example TestTranscribeNoId :
  fst (Transcript json.scanner (handler 200 noIdBody) testClient someUrl start)
  = ("", Some (errorString "response did not include an id")).
Proof. vm_compute. reflexivity. Qed.

Example TestPollTranscribe :
  option_map fst
    (PollTranscript json.scanner (handler 200 completedBody) testClient someUrl None 1 start)
  = Some (spoken, None).
Proof. vm_compute. reflexivity. Qed.

Example TestPollTranscribeBadBody :
  option_map fst
    (PollTranscript json.scanner (handler 200 badBody) testClient jobId None 1 start)
  = Some ("", Some SyntaxError).
Proof. vm_compute. reflexivity. Qed.

Example TestPollTranscribeError :
  option_map fst
    (PollTranscript json.scanner (handler 200 errorBody) testClient jobId None 1 start)
  = Some ("", Some (errorString "")).
Proof. vm_compute. reflexivity. Qed.

Example TestPollTranscribeBadHttpStatus :
  map (fun code =>
         option_map fst
           (PollTranscript json.scanner (handler code queuedBody) testClient jobId
              (Some {| frequency := 0; timeout := time.Millisecond |}) 1 start))
      [400; 404; 500]
  = let err := Some ("", Some (errorString queuedBody)) in [err; err; err].
Proof. vm_compute. reflexivity. Qed.

Example UploadLocalFile_null_body :
  fst (UploadLocalFile json.scanner (handler 200 "null") testClient "" start)
  = ("", None).
Proof. vm_compute. reflexivity. Qed.

(** * Further properties of the client *)

(** ** Strings *)

Lemma append_assoc (a b c : string) : ((a ++ b) ++ c)%string = (a ++ (b ++ c))%string.
Proof.
  induction a as [|x a IH]; simpl; [reflexivity | rewrite IH; reflexivity].
Qed.

Lemma length_append (a b : string) :
  String.length (a ++ b) = (String.length a + String.length b)%nat.
Proof.
  induction a as [|x a IH]; simpl; [reflexivity | rewrite IH; reflexivity].
Qed.

(** ** The decimal string of a status code *)

Lemma digits_app (fuel : nat) :
  forall (u : Z) (acc : string),
    strconv.digits fuel u acc = (strconv.digits fuel u "" ++ acc)%string.
Proof.
  induction fuel as [|fuel IH]; intros u acc; simpl; [reflexivity|].
  destruct (u =? 0); [reflexivity|].
  rewrite (IH (u / 10) (String _ acc)), (IH (u / 10) (String _ "")).
  rewrite append_assoc. reflexivity.
Qed.

(** Once there is a round per decimal digit, more fuel changes nothing. *)
Lemma digits_fuel (f1 : nat) :
  forall (f2 : nat) (u : Z) (acc : string),
    0 <= u < 10 ^ Z.of_nat f1 ->
    u < 10 ^ Z.of_nat f2 ->
    strconv.digits f1 u acc = strconv.digits f2 u acc.
Proof.
  induction f1 as [|f1 IH]; intros f2 u acc Hu1 Hu2.
  - assert (u = 0) as -> by (simpl in Hu1; lia).
    destruct f2; reflexivity.
  - simpl. destruct (Z.eqb_spec u 0) as [->|Hnz].
    + destruct f2; reflexivity.
    + destruct f2 as [|f2]; [simpl in Hu2; lia|]. simpl.
      destruct (Z.eqb_spec u 0) as [|_]; [contradiction|].
      rewrite Nat2Z.inj_succ, Z.pow_succ_r in Hu1, Hu2 by lia.
      apply IH;
        [ split; [apply Z.div_pos; lia | apply Z.div_lt_upper_bound; lia]
        | apply Z.div_lt_upper_bound; lia ].
Qed.

Lemma log2_fuel (u : Z) :
  0 < u -> u < 10 ^ Z.of_nat (S (Z.to_nat (Z.log2 u))).
Proof.
  intros Hu. pose proof (Z.log2_nonneg u) as Hl.
  destruct (Z.log2_spec u Hu) as [_ Hup].
  rewrite Nat2Z.inj_succ, Z2Nat.id by assumption.
  eapply Z.lt_le_trans; [exact Hup|].
  apply Z.pow_le_mono_l. lia.
Qed.

(** The decimal string of a number of two digits or more is the string of
    its tenth, followed by its last digit. *)
Lemma formatUint_step (u : Z) :
  10 <= u ->
  strconv.formatUint u
  = (strconv.formatUint (u / 10) ++ String (strconv.digitChar (u mod 10)) "")%string.
Proof.
  intros Hu. unfold strconv.formatUint.
  assert (Hq : 0 < u / 10) by (apply Z.div_str_pos; lia).
  destruct (Z.eqb_spec u 0) as [|_]; [lia|].
  destruct (Z.eqb_spec (u / 10) 0) as [|_]; [lia|].
  pose proof (log2_fuel u ltac:(lia)) as Hfu.
  pose proof (log2_fuel (u / 10) Hq) as Hfq.
  rewrite Nat2Z.inj_succ, Z.pow_succ_r in Hfu by lia.
  remember (S (Z.to_nat (Z.log2 (u / 10)))) as f2 eqn:Hf2.
  cbn [strconv.digits]. destruct (Z.eqb_spec u 0) as [|_]; [lia|].
  rewrite digits_app. f_equal.
  apply digits_fuel; [split; [lia|] | exact Hfq].
  apply Z.div_lt_upper_bound; lia.
Qed.

Lemma formatUint_length (u : Z) : (1 <= String.length (strconv.formatUint u))%nat.
Proof.
  unfold strconv.formatUint. destruct (Z.eqb_spec u 0) as [|Hnz]; [simpl; lia|].
  cbn [strconv.digits]. destruct (Z.eqb_spec u 0) as [|_]; [contradiction|].
  rewrite digits_app, length_append. simpl. lia.
Qed.

Lemma formatUint_length3 (u : Z) :
  100 <= u -> (3 <= String.length (strconv.formatUint u))%nat.
Proof.
  intros Hu. rewrite (formatUint_step u) by lia.
  assert (Hq : 10 <= u / 10) by (apply Z.div_le_lower_bound; lia).
  rewrite (formatUint_step (u / 10)) by exact Hq.
  rewrite !length_append. pose proof (formatUint_length (u / 10 / 10)). simpl. lia.
Qed.

(** What follows the first three bytes of a subject does not matter. *)
Lemma okStatusRegex_prefix (s t : string) :
  (3 <= String.length s)%nat ->
  regexp.MatchString (regexp.MustCompile "^2..") (s ++ t)
  = regexp.MatchString (regexp.MustCompile "^2..") s.
Proof.
  intros Hlen. rewrite !okStatusRegex_match.
  destruct s as [|a [|b [|c s]]]; simpl in Hlen; try lia. reflexivity.
Qed.

Lemma isValidStatus_tenth (n : Z) :
  1000 <= n -> isValidStatus n = isValidStatus (n / 10).
Proof.
  intros Hn. unfold isValidStatus. cbv zeta. unfold strconv.Itoa.
  assert (Hq : 100 <= n / 10) by (apply Z.div_le_lower_bound; lia).
  destruct (Z.ltb_spec n 0) as [|_]; [lia|].
  destruct (Z.ltb_spec (n / 10) 0) as [|_]; [lia|].
  rewrite (formatUint_step n) by lia.
  apply okStatusRegex_prefix, formatUint_length3, Hq.
Qed.

(** X1: the status check accepts exactly the codes whose decimal string has
    three digits or more and starts with 2: the codes from 200 to 299, from
    2000 to 2999, from 20000 to 29999 and so on. No negative code and no code
    below 200 passes. *)
Theorem isValidStatus_leading_two (statusCode : Z) :
  isValidStatus statusCode = true
  <-> exists k : nat,
      2 * 10 ^ Z.of_nat (k + 2) <= statusCode < 3 * 10 ^ Z.of_nat (k + 2).
Proof.
  destruct (Z_lt_le_dec statusCode 0) as [Hneg|Hpos].
  - rewrite isValidStatus_negative by assumption. split; [discriminate|].
    intros [k [Hlo _]]. pose proof (Z.pow_nonneg 10 (Z.of_nat (k + 2))). lia.
  - revert statusCode Hpos.
    apply (Z_lt_induction
             (fun n => isValidStatus n = true
                       <-> exists k : nat,
                           2 * 10 ^ Z.of_nat (k + 2) <= n < 3 * 10 ^ Z.of_nat (k + 2))).
    intros n IH. destruct (Z_lt_le_dec n 0) as [Hneg|Hpos].
    { rewrite isValidStatus_negative by assumption. split; [discriminate|].
      intros [k [Hlo _]]. pose proof (Z.pow_nonneg 10 (Z.of_nat (k + 2))). lia. }
    destruct (Z_lt_le_dec n 1000) as [Hsmall|Hbig].
    + pose proof isValidStatus_table as Htab.
      rewrite forallb_forall in Htab. specialize (Htab (Z.to_nat n)).
      rewrite Z2Nat.id in Htab by assumption.
      rewrite (Bool.eqb_prop _ _ (Htab ltac:(apply in_seq; lia))).
      unfold statusIn2xx. rewrite andb_true_iff, Z.leb_le, Z.ltb_lt. split.
      * intros H. exists O. simpl. lia.
      * intros [k [Hlo Hhi]]. destruct k as [|k]; [simpl in Hlo, Hhi; lia|].
        exfalso. replace (Z.of_nat (S k + 2)) with (Z.succ (Z.of_nat (k + 2))) in Hlo by lia.
        rewrite Z.pow_succ_r in Hlo by lia.
        assert (100 <= 10 ^ Z.of_nat (k + 2)).
        { replace (Z.of_nat (k + 2)) with (Z.of_nat k + 2) by lia.
          rewrite Z.pow_add_r by lia. pose proof (Z.pow_pos_nonneg 10 (Z.of_nat k)). lia. }
        lia.
    + rewrite (isValidStatus_tenth n Hbig).
      assert (Hq : 0 <= n / 10 < n) by (split; [apply Z.div_pos | apply Z.div_lt]; lia).
      rewrite (IH (n / 10) Hq). split.
      * intros [k [Hlo Hhi]]. exists (S k).
        replace (Z.of_nat (S k + 2)) with (Z.succ (Z.of_nat (k + 2))) by lia.
        rewrite Z.pow_succ_r by lia.
        remember (10 ^ Z.of_nat (k + 2)) as p. clear Heqp IH.
        Z.div_mod_to_equations. lia.
      * intros [k [Hlo Hhi]]. destruct k as [|k]; [simpl in Hlo, Hhi; lia|].
        exists k.
        replace (Z.of_nat (S k + 2)) with (Z.succ (Z.of_nat (k + 2))) in Hlo, Hhi by lia.
        rewrite Z.pow_succ_r in Hlo, Hhi by lia.
        remember (10 ^ Z.of_nat (k + 2)) as p. clear Heqp IH.
        Z.div_mod_to_equations. lia.
Qed.

(** ** The response decoder, case by case *)

(** X2: the decoder hands out a value only for a response whose body could
    be read, whose status passes the check and whose body decodes without
    error; and for every such response it hands out the decoded value. *)
Theorem getData_success_iff :
  forall (scan : string -> option json.Value) (T : Type) (S : json.Struct T)
         (response : http.Response) (data : T),
    @getData scan T S response = inr data
    <-> isValidStatus (http.StatusCode response) = true
        /\ exists text, http.Body response = inr text
                        /\ json.Unmarshal scan text = (data, None).
Proof.
  intros scan T S response data. split.
  - apply getData_inr.
  - intros [Hs [text [Hb Hu]]]. exact (getData_decoded scan response text data Hb Hs Hu).
Qed.

(** X3: the errors of the decoder are of three kinds, tried in this order:
    the error of reading the body, whatever the status is; for a status
    that fails the check, the body formatted by [fmt.Errorf]; for a status
    that passes, the error of decoding the body. *)
Theorem getData_failure_iff :
  forall (scan : string -> option json.Value) (T : Type) (S : json.Struct T)
         (response : http.Response) (err : error),
    @getData scan T S response = inl err
    <-> http.Body response = inl err
        \/ (exists text, http.Body response = inr text
                         /\ isValidStatus (http.StatusCode response) = false
                         /\ err = fmt.Errorf text)
        \/ (exists text, http.Body response = inr text
                         /\ isValidStatus (http.StatusCode response) = true
                         /\ snd (@json.Unmarshal scan T S text) = Some err).
Proof.
  intros scan T S response err. unfold getData, getBody.
  destruct (http.Body response) as [e|text].
  - split.
    + intros Heq. left. injection Heq as <-. reflexivity.
    + intros [Heq | [[t [Hb _]] | [t [Hb _]]]]; [|discriminate|discriminate].
      injection Heq as <-. reflexivity.
  - destruct (isValidStatus (http.StatusCode response)); simpl.
    + destruct (json.Unmarshal scan text) as [d [e|]] eqn:Hu; split.
      * intros Heq. injection Heq as <-. right. right. exists text.
        rewrite Hu. repeat split.
      * intros [Heq | [[t [_ [Hs _]]] | [t [Hb [_ He]]]]]; try discriminate.
        injection Hb as <-. rewrite Hu in He. simpl in He. injection He as <-.
        reflexivity.
      * discriminate.
      * intros [Heq | [[t [_ [Hs _]]] | [t [Hb [_ He]]]]]; try discriminate.
        injection Hb as <-. rewrite Hu in He. discriminate.
    + split.
      * intros Heq. injection Heq as <-. right. left. exists text. repeat split.
      * intros [Heq | [[t [Hb [_ He]]] | [t [_ [Hs _]]]]]; try discriminate.
        injection Hb as <-. rewrite He. reflexivity.
Qed.

(** X4: for a response whose status fails the check and whose body has no
    percent sign, the error message is the body, byte for byte. *)
Theorem getData_plain_body_is_message :
  forall (scan : string -> option json.Value) (T : Type) (S : json.Struct T)
         (response : http.Response) (text : string),
    http.Body response = inr text ->
    isValidStatus (http.StatusCode response) = false ->
    contains "%" text = false ->
    exists err, @getData scan T S response = inl err /\ error_Error err = Some text.
Proof.
  intros scan T S response text Hb Hs Hno. exists (errorString text). split.
  - exact (getData_invalid_status_plain scan response text Hb Hs Hno).
  - reflexivity.
Qed.

Lemma getData_plain_body_is_message_witness :
  exists err,
    getData (T := UploadLocalFileResponse) json.scanner
      {| http.StatusCode := 404; http.Body := inr "Not Found" |} = inl err
    /\ error_Error err = Some "Not Found".
Proof.
  apply (getData_plain_body_is_message json.scanner UploadLocalFileResponse _
           {| http.StatusCode := 404; http.Body := inr "Not Found" |} "Not Found");
    reflexivity.
Defined.

(** X5: when the status passes the check and the decoder still fails, its
    error is the one [json.Unmarshal] reports for the body, a syntax error
    or a type error. *)
Theorem getData_decode_failure_kind :
  forall (scan : string -> option json.Value) (T : Type) (S : json.Struct T)
         (response : http.Response) (text : string) (err : error),
    http.Body response = inr text ->
    isValidStatus (http.StatusCode response) = true ->
    @getData scan T S response = inl err ->
    snd (@json.Unmarshal scan T S text) = Some err
    /\ (err = SyntaxError \/ exists value field, err = UnmarshalTypeError value field).
Proof.
  intros scan T S response text err Hb Hs Hfail.
  destruct (getData_decode_error scan response text err Hb Hs Hfail) as [Hu Hkind].
  split; [exact Hu|].
  destruct err as [s | | v f | s]; try discriminate Hkind.
  - left. reflexivity.
  - right. exists v, f. reflexivity.
Qed.

Lemma getData_decode_failure_kind_witness :
  snd (json.Unmarshal (T := UploadLocalFileResponse) json.scanner badContentBody)
  = Some (UnmarshalTypeError "number" "upload_url")
  /\ (UnmarshalTypeError "number" "upload_url" = SyntaxError
      \/ exists value field,
         UnmarshalTypeError "number" "upload_url" = UnmarshalTypeError value field).
Proof.
  apply (getData_decode_failure_kind json.scanner UploadLocalFileResponse _
           {| http.StatusCode := 200; http.Body := inr badContentBody |}
           badContentBody (UnmarshalTypeError "number" "upload_url"));
    [ reflexivity | reflexivity | vm_compute; reflexivity ].
Defined.

(** ** Decoding the upload response *)

Lemma object_app {T} `{json.Struct T} (pre post : list (string * json.Value)) :
  forall (v : T) (saved : option error),
    json.object (pre ++ post) v saved
    = json.object post (fst (json.object pre v saved)) (snd (json.object pre v saved)).
Proof.
  induction pre as [|[key item] pre IH]; intros v saved; simpl; [reflexivity|].
  destruct (json.lookupField key) as [f|]; [|apply IH].
  destruct item; apply IH.
Qed.

(** An error once saved is the error of the whole decoding. *)
Lemma object_saved {T} `{json.Struct T} (members : list (string * json.Value)) :
  forall (v : T) (err : error), snd (json.object members v (Some err)) = Some err.
Proof.
  induction members as [|[key item] members IH]; intros v err; simpl; [reflexivity|].
  destruct (json.lookupField key) as [f|]; [|apply IH].
  destruct item; apply IH.
Qed.

(** Members that are strings or [null] wherever they name a field raise no
    error. *)
Lemma object_storable {T} `{json.Struct T} (members : list (string * json.Value)) :
  (forall key item, In (key, item) members ->
                    json.lookupField key = None \/ storable item = true) ->
  forall (v : T), snd (json.object members v None) = None.
Proof.
  induction members as [|[key item] members IH]; intros Hok v; simpl; [reflexivity|].
  assert (Hrest : forall k i, In (k, i) members ->
                              json.lookupField k = None \/ storable i = true).
  { intros k i Hin. apply (Hok k i). right. exact Hin. }
  destruct (Hok key item (or_introl eq_refl)) as [Hnone|Hst].
  - rewrite Hnone. apply IH, Hrest.
  - destruct (json.lookupField key) as [f|]; [|apply IH, Hrest].
    destruct item; try discriminate Hst; apply IH, Hrest.
Qed.

Lemma lookupField_upload_url_match (key : string) :
  json.equalFold key "upload_url" = true ->
  json.lookupField (T := UploadLocalFileResponse) key = Some uploadUrlField.
Proof.
  intros Hfold. unfold json.lookupField. simpl.
  destruct (String.eqb key "upload_url"); [reflexivity|].
  rewrite Hfold. reflexivity.
Qed.

Lemma lookupField_upload_url_cases (key : string) :
  json.lookupField (T := UploadLocalFileResponse) key
  = if json.equalFold key "upload_url" then Some uploadUrlField else None.
Proof.
  destruct (json.equalFold key "upload_url") eqn:Hfold.
  - apply lookupField_upload_url_match, Hfold.
  - apply lookupField_upload_url, Hfold.
Qed.

(** X6: the upload URL of a 2xx response is the string of the last member
    whose key names [upload_url] (case ignored), as long as every earlier
    member with such a key is a string or [null]: members with other keys
    are ignored, and a later string replaces an earlier one. *)
Theorem UploadLocalFile_returns_upload_url :
  forall scan net client content w w' req resp text pre key url post,
    uploadRequest net client content = inr req ->
    Do net req w = (inr resp, w') ->
    isValidStatus (http.StatusCode resp) = true ->
    http.Body resp = inr text ->
    scan text = Some (json.Object (pre ++ (key, json.Str url) :: post)) ->
    json.equalFold key "upload_url" = true ->
    (forall k i, In (k, i) pre ->
                 json.equalFold k "upload_url" = true -> storable i = true) ->
    (forall k i, In (k, i) post -> json.equalFold k "upload_url" = false) ->
    UploadLocalFile scan net client content w = ((url, None), w').
Proof.
  intros scan net client content w w' req resp text pre key url post
         Hreq Hdo Hs Hb Hscan Hkey Hpre Hpost.
  unfold UploadLocalFile. rewrite Hreq, Hdo.
  rewrite (getData_valid_status scan resp text Hb Hs).
  unfold json.Unmarshal. rewrite Hscan, object_app.
  rewrite (object_storable pre).
  - cbn [json.object]. rewrite (lookupField_upload_url_match key Hkey).
    rewrite object_no_field; [reflexivity|].
    intros k i Hin. apply lookupField_upload_url. exact (Hpost k i Hin).
  - intros k i Hin. rewrite lookupField_upload_url_cases.
    destruct (json.equalFold k "upload_url") eqn:Hfold; [right | left; reflexivity].
    exact (Hpre k i Hin Hfold).
Qed.

Lemma UploadLocalFile_returns_upload_url_witness :
  let text := body "{'upload_url': 'a', 'size': 3, 'Upload_URL': 'b', 'id': null}" in
  UploadLocalFile json.scanner (handler 200 text) testClient "" start
  = (("b", None), snd (UploadLocalFile json.scanner (handler 200 text) testClient "" start)).
Proof.
  intros text.
  eapply (UploadLocalFile_returns_upload_url json.scanner (handler 200 text) testClient ""
            start _ _ _ text
            [("upload_url", json.Str "a"); ("size", json.Number "3")]
            "Upload_URL" "b" [("id", json.Null)]);
    [ reflexivity | reflexivity | reflexivity | reflexivity | vm_compute; reflexivity
    | reflexivity | | ].
  - intros k i [Heq | [Heq | []]] Hfold; injection Heq as <- <-;
      [reflexivity | discriminate Hfold].
  - intros k i [Heq | []]. injection Heq as <- <-. reflexivity.
Defined.

(** X7: when a member whose key names [upload_url] is neither a string nor
    [null], and no earlier member names the field, [UploadLocalFile] returns
    the empty string and the type error for that member, whatever follows
    it: a well-typed member later in the object does not undo the error. *)
Theorem UploadLocalFile_wrong_type :
  forall scan net client content w w' req resp text pre key item post,
    uploadRequest net client content = inr req ->
    Do net req w = (inr resp, w') ->
    isValidStatus (http.StatusCode resp) = true ->
    http.Body resp = inr text ->
    scan text = Some (json.Object (pre ++ (key, item) :: post)) ->
    (forall k i, In (k, i) pre -> json.equalFold k "upload_url" = false) ->
    json.equalFold key "upload_url" = true ->
    storable item = false ->
    UploadLocalFile scan net client content w
    = (("", Some (UnmarshalTypeError (json.kindOf item) "upload_url")), w').
Proof.
  intros scan net client content w w' req resp text pre key item post
         Hreq Hdo Hs Hb Hscan Hpre Hkey Hitem.
  unfold UploadLocalFile. rewrite Hreq, Hdo.
  rewrite (getData_valid_status scan resp text Hb Hs).
  unfold json.Unmarshal. rewrite Hscan, object_app.
  rewrite (object_no_field pre)
    by (intros k i Hin; apply lookupField_upload_url; exact (Hpre k i Hin)).
  cbn [json.object fst snd]. rewrite (lookupField_upload_url_match key Hkey).
  assert (Herr : forall v : UploadLocalFileResponse,
             json.object post v
               (json.saveError None
                  (UnmarshalTypeError (json.kindOf item) (json.name uploadUrlField)))
             = (fst (json.object post v
                       (Some (UnmarshalTypeError (json.kindOf item) "upload_url"))),
                Some (UnmarshalTypeError (json.kindOf item) "upload_url"))).
  { intros v. simpl json.saveError. simpl json.name.
    pose proof (object_saved post v
                  (UnmarshalTypeError (json.kindOf item) "upload_url")) as Hkeep.
    destruct (json.object post v
                (Some (UnmarshalTypeError (json.kindOf item) "upload_url")))
      as [v' s'].
    simpl in Hkeep. rewrite Hkeep. reflexivity. }
  destruct item; try discriminate Hitem; rewrite Herr; reflexivity.
Qed.

Lemma UploadLocalFile_wrong_type_witness :
  let text := body "{'size': 3, 'upload_url': 1, 'UPLOAD_URL': 'b'}" in
  UploadLocalFile json.scanner (handler 200 text) testClient "" start
  = (("", Some (UnmarshalTypeError "number" "upload_url")),
     snd (UploadLocalFile json.scanner (handler 200 text) testClient "" start)).
Proof.
  intros text.
  eapply (UploadLocalFile_wrong_type json.scanner (handler 200 text) testClient ""
            start _ _ _ text [("size", json.Number "3")]
            "upload_url" (json.Number "1") [("UPLOAD_URL", json.Str "b")]);
    [ reflexivity | reflexivity | reflexivity | reflexivity | vm_compute; reflexivity
    | | reflexivity | reflexivity ].
  intros k i [Heq | []]. injection Heq as <- <-. reflexivity.
Defined.

(** ** What the operations send *)

Lemma Do_world (net : http.Transport) (req : http.Request) (w : World) :
  sent (snd (Do net req w)) = (sent w ++ [req])%list
  /\ slept (snd (Do net req w)) = slept w
  /\ now w <= now (snd (Do net req w)).
Proof.
  unfold Do. simpl. repeat split. lia.
Qed.

(** X8: when [http.NewRequest] refuses the method and URL of an operation,
    the operation returns the empty string with that error and leaves the
    world as it was: no request is sent and nothing sleeps. *)
Theorem refused_request_sends_nothing :
  forall scan net client call fuel w err,
    requestOf net client call = inl err ->
    run scan net client call fuel w = Some (("", Some err), w).
Proof.
  intros scan net client call fuel w err Hreq.
  destruct call as [content | audioUrl | id pollSettings]; simpl in Hreq; simpl.
  - unfold UploadLocalFile. rewrite Hreq. reflexivity.
  - unfold Transcript. rewrite Hreq. reflexivity.
  - unfold PollTranscript. rewrite Hreq. reflexivity.
Qed.

(** A transport in front of which no URL is accepted. *)
Lemma refused_request_sends_nothing_witness :
  let net := {| http.refuses := fun _ _ => Some (ExternalError "invalid URL");
                http.RoundTrip := http.RoundTrip (handler 200 completedBody) |} in
  run json.scanner net testClient (CallPollTranscript jobId None) 0 start
  = Some (("", Some (ExternalError "invalid URL")), start).
Proof.
  intros net.
  apply (refused_request_sends_nothing json.scanner net testClient
           (CallPollTranscript jobId None) 0 start (ExternalError "invalid URL")).
  reflexivity.
Defined.

(** X9: an upload or a submit whose request could be built sends that
    request exactly once and never sleeps, whatever the outcome. *)
Theorem single_request_no_sleep :
  forall scan net client call fuel w req r w',
    isPoll call = false ->
    requestOf net client call = inr req ->
    run scan net client call fuel w = Some (r, w') ->
    sent w' = (sent w ++ [req])%list /\ slept w' = slept w.
Proof.
  intros scan net client call fuel w req r w' Hpoll Hreq.
  destruct (Do_world net req w) as [Hsent [Hslept _]].
  destruct call as [content | audioUrl | id pollSettings];
    simpl in Hreq; simpl; try discriminate Hpoll.
  - unfold UploadLocalFile. rewrite Hreq.
    destruct (Do net req w) as [[e|resp] w1]; simpl in Hsent, Hslept.
    + intros Heq. injection Heq as _ <-. split; assumption.
    + destruct (getData scan resp) as [e|data];
        intros Heq; injection Heq as _ <-; split; assumption.
  - unfold Transcript. rewrite Hreq.
    destruct (Do net req w) as [[e|resp] w1]; simpl in Hsent, Hslept.
    + intros Heq. injection Heq as _ <-. split; assumption.
    + destruct (getData scan resp) as [e|data].
      * intros Heq. injection Heq as _ <-. split; assumption.
      * destruct (String.eqb (Id data) "");
          [|destruct (String.eqb (Status data) "error")];
          intros Heq; injection Heq as _ <-; split; assumption.
Qed.

Lemma single_request_no_sleep_witness :
  let w' := snd (Transcript json.scanner (handler 500 "oops") testClient someUrl start) in
  sent w'
  = ([] ++ [ {| http.Method := "POST";
               http.URL := "http://127.0.0.1:8080/transcript";
               http.Header := [("Content-Type", "application/json");
                               ("Authorization", "some-token")];
               http.ReqBody := http.Marshalled someUrl |} ])%list
  /\ slept w' = [].
Proof.
  intros w'.
  apply (single_request_no_sleep json.scanner (handler 500 "oops") testClient
           (CallTranscript someUrl) 0 start _
           (fst (Transcript json.scanner (handler 500 "oops") testClient someUrl start))
           w');
    reflexivity.
Defined.

(** X10: a submit that returns no error returns an id that is not empty:
    the id and the status [error] are checked on every decoded response. *)
Theorem Transcript_success_has_id :
  forall scan net client audioUrl w s w',
    Transcript scan net client audioUrl w = ((s, None), w') ->
    s <> "".
Proof.
  intros scan net client audioUrl w s w'. unfold Transcript.
  destruct (transcriptRequest net client audioUrl) as [e|req]; [discriminate|].
  destruct (Do net req w) as [[e|resp] w1]; [discriminate|].
  destruct (getData scan resp) as [e|data]; [discriminate|].
  destruct (String.eqb_spec (Id data) "") as [|Hid]; [discriminate|].
  destruct (String.eqb (Status data) "error"); [discriminate|].
  intros Heq. injection Heq as <- _. exact Hid.
Qed.

Lemma Transcript_success_has_id_witness :
  fst (Transcript json.scanner (handler 200 completedBody) testClient someUrl start)
  = (jobId, None)
  /\ jobId <> "".
Proof.
  split; [vm_compute; reflexivity|].
  apply (Transcript_success_has_id json.scanner (handler 200 completedBody) testClient
           someUrl start jobId
           (snd (Transcript json.scanner (handler 200 completedBody) testClient
                   someUrl start))).
  vm_compute. reflexivity.
Defined.



(** ** The poll loop, round by round *)

Section PollRounds.

Variable scan : string -> option json.Value.
Variable net : http.Transport.
Variable req : http.Request.
Variable pollSettings : PollSettings.
Variable timeoutTime : Z.

Let loop := pollLoop scan net req pollSettings timeoutTime.

(** What a returning round is: the five ways out of the loop. *)
Lemma pollLoop_last (w wf : World) (r : Result) :
  loop 1 w = Some (r, wf) ->
  (time.Before (now w) timeoutTime = false
   /\ wf = w
   /\ r = fail (errorString ("timeout, transcription not finished in "
                               ++ time.Duration_String (timeout pollSettings))))
  \/ (time.Before (now w) timeoutTime = true
      /\ ((exists err, Do net req w = (inl err, wf) /\ r = fail err)
          \/ (exists resp err,
                 Do net req w = (inr resp, wf)
                 /\ getData (T := TranscriptResponse) scan resp = inl err
                 /\ r = fail err)
          \/ (exists resp data,
                 Do net req w = (inr resp, wf)
                 /\ getData scan resp = inr data
                 /\ Status data = Err
                 /\ r = fail (errorString (Error data)))
          \/ (exists resp data,
                 Do net req w = (inr resp, wf)
                 /\ getData scan resp = inr data
                 /\ Status data = Completed
                 /\ r = (Text data, None)))).
Proof.
  unfold loop. rewrite pollLoop_S.
  destruct (time.Before (now w) timeoutTime) eqn:Hin.
  - intros Hrun. right. split; [reflexivity|].
    destruct (Do net req w) as [[err|resp] w1] eqn:Hdo.
    + injection Hrun as <- <-. left. exists err. split; reflexivity.
    + destruct (getData scan resp) as [err|data] eqn:Hdata.
      * injection Hrun as <- <-. right. left. exists resp, err. repeat split.
        exact Hdata.
      * destruct (String.eqb_spec (Status data) Err) as [He|He].
        -- injection Hrun as <- <-. right. right. left. exists resp, data.
           repeat split; assumption.
        -- destruct (String.eqb_spec (Status data) Completed) as [Hc|Hc].
           ++ injection Hrun as <- <-. right. right. right. exists resp, data.
              repeat split; assumption.
           ++ destruct (String.eqb (Status data) Queued); discriminate Hrun.
  - intros Hrun. injection Hrun as <- <-. left. repeat split.
Qed.

(** The requests and the sleeps of a run. *)
Lemma pollLoop_trace (fuel : nat) :
  forall (w wf : World) (r : Result),
    loop fuel w = Some (r, wf) ->
    exists k j : nat,
      sent wf = (sent w ++ repeat req k)%list
      /\ slept wf = (slept w ++ repeat (frequency pollSettings) j)%list
      /\ (j <= k)%nat
      /\ now w <= now wf.
Proof.
  unfold loop.
  induction fuel as [|fuel IH]; intros w wf r Hrun; [discriminate|].
  rewrite pollLoop_S in Hrun.
  assert (Hstop : forall w1 : World,
             sent w1 = (sent w ++ [req])%list -> slept w1 = slept w ->
             now w <= now w1 ->
             exists k j : nat,
               sent w1 = (sent w ++ repeat req k)%list
               /\ slept w1 = (slept w ++ repeat (frequency pollSettings) j)%list
               /\ (j <= k)%nat /\ now w <= now w1).
  { intros w1 Hs Hz Hn. exists 1%nat, 0%nat. simpl. rewrite app_nil_r.
    repeat split; try assumption. lia. }
  destruct (time.Before (now w) timeoutTime).
  - pose proof (Do_world net req w) as [Hsent [Hslept Hnow]].
    destruct (Do net req w) as [[err|resp] w1]; simpl in Hsent, Hslept, Hnow.
    + injection Hrun as _ <-. apply Hstop; assumption.
    + destruct (getData scan resp) as [err|data].
      * injection Hrun as _ <-. apply Hstop; assumption.
      * destruct (String.eqb (Status data) Err);
          [injection Hrun as _ <-; apply Hstop; assumption|].
        destruct (String.eqb (Status data) Completed);
          [injection Hrun as _ <-; apply Hstop; assumption|].
        destruct (String.eqb (Status data) Queued).
        -- destruct (IH _ _ _ Hrun) as [k [j [Hs [Hz [Hjk Hn]]]]].
           exists (S k), (S j). simpl in Hs, Hz, Hn.
           rewrite Hs, Hz, Hsent, Hslept, <- !app_assoc. simpl.
           repeat split; lia.
        -- destruct (IH _ _ _ Hrun) as [k [j [Hs [Hz [Hjk Hn]]]]].
           exists (S k), j.
           rewrite Hs, Hz, Hsent, Hslept, <- !app_assoc. simpl.
           repeat split; lia.
  - injection Hrun as _ <-. exists 0%nat, 0%nat. simpl. rewrite !app_nil_r.
    repeat split; lia.
Qed.

(** With at least [lag] nanoseconds per call, the requests of a run are
    bounded by the time left at its start. *)
Lemma pollLoop_requests (lag : Z) :
  0 < lag ->
  (forall n r, lag <= Z.of_N (http.elapsed (http.RoundTrip net n r))) ->
  forall (fuel : nat) (w wf : World) (r : Result),
    loop fuel w = Some (r, wf) ->
    (List.length (sent w) <= List.length (sent wf))%nat
    /\ (Z.of_nat (List.length (sent wf)) - Z.of_nat (List.length (sent w)) - 1) * lag
       < Z.max 0 (timeoutTime - now w).
Proof.
  intros Hlag Hslow. unfold loop.
  induction fuel as [|fuel IH]; intros w wf r Hrun; [discriminate|].
  rewrite pollLoop_S in Hrun. unfold time.Before in Hrun.
  destruct (Z.ltb_spec (now w) timeoutTime) as [Hin|Hlate].
  - assert (Hone : forall w1 : World,
               sent w1 = (sent w ++ [req])%list ->
               (List.length (sent w) <= List.length (sent w1))%nat
               /\ (Z.of_nat (List.length (sent w1))
                   - Z.of_nat (List.length (sent w)) - 1) * lag
                  < Z.max 0 (timeoutTime - now w)).
    { intros w1 Hs. rewrite Hs, length_app. simpl. split; [lia|].
      replace (Z.of_nat (List.length (sent w) + 1)
               - Z.of_nat (List.length (sent w)) - 1) with 0 by lia.
      lia. }
    assert (Hmore : forall w1 : World,
               (List.length (sent w1) = List.length (sent w) + 1)%nat ->
               now w + lag <= now w1 ->
               loop fuel w1 = Some (r, wf) ->
               (List.length (sent w) <= List.length (sent wf))%nat
               /\ (Z.of_nat (List.length (sent wf))
                   - Z.of_nat (List.length (sent w)) - 1) * lag
                  < Z.max 0 (timeoutTime - now w)).
    { intros w1 Hlen Hnow H1. destruct (IH _ _ _ H1) as [Hle Hbound].
      split; [lia|]. rewrite Hlen in Hbound.
      set (m := Z.of_nat (List.length (sent wf))
                - Z.of_nat (List.length (sent w)) - 2) in *.
      replace (Z.of_nat (List.length (sent wf))
               - Z.of_nat (List.length (sent w) + 1) - 1) with m in Hbound by lia.
      replace (Z.of_nat (List.length (sent wf))
               - Z.of_nat (List.length (sent w)) - 1) with (m + 1) by lia.
      rewrite Z.mul_add_distr_r, Z.mul_1_l.
      destruct (Z_lt_le_dec m 0) as [Hm|Hm].
      - assert (m * lag <= - lag) by nia. lia.
      - assert (0 <= m * lag) by nia. lia. }
    assert (Hdo : sent (snd (Do net req w)) = (sent w ++ [req])%list
                  /\ now w + lag <= now (snd (Do net req w))).
    { unfold Do. simpl. split; [reflexivity|].
      specialize (Hslow (List.length (sent w)) req). lia. }
    destruct Hdo as [Hsent Hnow].
    destruct (Do net req w) as [[err|resp] w1]; simpl in Hsent, Hnow.
    + injection Hrun as _ <-. apply Hone, Hsent.
    + destruct (getData scan resp) as [err|data];
        [injection Hrun as _ <-; apply Hone, Hsent|].
      destruct (String.eqb (Status data) Err);
        [injection Hrun as _ <-; apply Hone, Hsent|].
      destruct (String.eqb (Status data) Completed);
        [injection Hrun as _ <-; apply Hone, Hsent|].
      destruct (String.eqb (Status data) Queued).
      * apply (Hmore (Sleep (frequency pollSettings) w1)); [| |exact Hrun].
        -- simpl. rewrite Hsent, length_app. reflexivity.
        -- simpl. lia.
      * apply (Hmore w1); [| |exact Hrun].
        -- rewrite Hsent, length_app. reflexivity.
        -- exact Hnow.
  - injection Hrun as _ <-. split; [lia|].
    replace (Z.of_nat (List.length (sent w)) - Z.of_nat (List.length (sent w)) - 1)
      with (-1) by lia.
    lia.
Qed.

(** With at least [lag] nanoseconds per call, enough fuel for the time
    left makes the loop return. *)
Lemma pollLoop_returns (lag : Z) :
  0 < lag ->
  (forall n r, lag <= Z.of_N (http.elapsed (http.RoundTrip net n r))) ->
  forall (fuel : nat) (w : World),
    timeoutTime - now w <= Z.of_nat fuel * lag ->
    exists r wf, loop (S fuel) w = Some (r, wf).
Proof.
  intros Hlag Hslow. unfold loop.
  induction fuel as [|fuel IH]; intros w Hfuel; rewrite pollLoop_S;
    unfold time.Before; destruct (Z.ltb_spec (now w) timeoutTime) as [Hin|Hlate];
    eauto.
  - simpl in Hfuel. lia.
  - assert (Hnow : now w + lag <= now (snd (Do net req w))).
    { unfold Do. simpl. specialize (Hslow (List.length (sent w)) req). lia. }
    destruct (Do net req w) as [[err|resp] w1]; simpl in Hnow; [eauto|].
    destruct (getData scan resp) as [err|data]; [eauto|].
    destruct (String.eqb (Status data) Err); [eauto|].
    destruct (String.eqb (Status data) Completed); [eauto|].
    destruct (String.eqb (Status data) Queued); apply IH; simpl now; nia.
Qed.

End PollRounds.

(** ** [PollTranscript] as a whole *)



(** X13: when, after any number of rounds that went on, a round gets a
    response that decodes to the status [error], [PollTranscript] returns
    the empty string and an error whose message is the error text of that
    response. *)
Theorem PollTranscript_service_error :
  forall scan net client id pollSettings req n w0 w w' resp data,
    pollRequest net client id = inr req ->
    rounds scan net req (orDefault pollSettings)
      (now w0 + timeout (orDefault pollSettings)) n w0 w ->
    time.Before (now w) (now w0 + timeout (orDefault pollSettings)) = true ->
    Do net req w = (inr resp, w') ->
    getData scan resp = inr data ->
    Status data = "error" ->
    forall fuel,
      PollTranscript scan net client id pollSettings (S n + fuel) w0
      = Some (("", Some (errorString (Error data))), w').
Proof.
  intros scan net client id pollSettings req n w0 w w' resp data
         Hreq Hrounds Hin Hdo Hdata Hst fuel.
  rewrite (PollTranscript_loop scan net client id pollSettings req Hreq).
  replace (S n + fuel)%nat with (n + S fuel)%nat by lia.
  rewrite (pollLoop_rounds _ _ _ _ _ _ _ _ Hrounds).
  eapply pollLoop_status_error; eassumption.
Qed.

Lemma PollTranscript_service_error_witness :
  let net := scripted [(200, queuedBody); (200, refusedBody)] in
  let pollSettings := Some {| frequency := 0; timeout := time.Second |} in
  exists w',
    PollTranscript json.scanner net testClient jobId pollSettings 2 start
    = Some (("", Some (errorString "audio_url is not reachable")), w').
Proof.
  intros net pollSettings. eexists.
  refine (PollTranscript_service_error json.scanner net testClient jobId pollSettings
            testPollRequest 1 start _ _ _
            {| Id := ""; Status := "error"; Text := "";
               Error := "audio_url is not reachable" |}
            eq_refl _ _ _ _ eq_refl 0%nat).
  - run_queued_round. apply rounds_O.
  - reflexivity.
  - reflexivity.
  - vm_compute. reflexivity.
Defined.

(** X14: when, after any number of rounds that went on, a round gets a
    response that decodes to the status [completed], [PollTranscript]
    returns the text of that response and no error, without a further
    request or sleep. *)
Theorem PollTranscript_completed :
  forall scan net client id pollSettings req n w0 w w' resp data,
    pollRequest net client id = inr req ->
    rounds scan net req (orDefault pollSettings)
      (now w0 + timeout (orDefault pollSettings)) n w0 w ->
    time.Before (now w) (now w0 + timeout (orDefault pollSettings)) = true ->
    Do net req w = (inr resp, w') ->
    getData scan resp = inr data ->
    Status data = "completed" ->
    (forall fuel,
        PollTranscript scan net client id pollSettings (S n + fuel) w0
        = Some ((Text data, None), w'))
    /\ sent w' = (sent w ++ [req])%list
    /\ slept w' = slept w.
Proof.
  intros scan net client id pollSettings req n w0 w w' resp data
         Hreq Hrounds Hin Hdo Hdata Hst.
  destruct (Do_sent net req w w' _ Hdo) as [Hsent [Hslept _]].
  repeat split; try assumption. intros fuel.
  rewrite (PollTranscript_loop scan net client id pollSettings req Hreq).
  replace (S n + fuel)%nat with (n + S fuel)%nat by lia.
  rewrite (pollLoop_rounds _ _ _ _ _ _ _ _ Hrounds).
  eapply pollLoop_status_completed; eassumption.
Qed.

(** TestPollTranscribe: the defaults, and a job that is completed. *)
Lemma PollTranscript_completed_witness :
  exists w',
    (forall fuel,
        PollTranscript json.scanner (handler 200 completedBody) testClient jobId None
          (1 + fuel) start
        = Some ((spoken, None), w'))
    /\ sent w' = [testPollRequest]
    /\ slept w' = [].
Proof.
  eexists.
  refine (PollTranscript_completed json.scanner (handler 200 completedBody) testClient
            jobId None testPollRequest 0 start start _ _
            {| Id := jobId; Status := "completed"; Text := spoken; Error := "" |}
            eq_refl (rounds_O _ _ _ _ _ _) eq_refl eq_refl _ eq_refl).
  vm_compute. reflexivity.
Defined.

(** X15: whenever [PollTranscript] returns without error, the string it
    returns is the text of the last response it received, and that response
    decoded to the status [completed]. *)
Theorem PollTranscript_success_is_completed :
  forall scan net client id pollSettings fuel w0 s w',
    PollTranscript scan net client id pollSettings fuel w0 = Some ((s, None), w') ->
    exists req w resp data,
      pollRequest net client id = inr req
      /\ Do net req w = (inr resp, w')
      /\ getData scan resp = inr data
      /\ Status data = "completed"
      /\ s = Text data.
Proof.
  intros scan net client id pollSettings fuel w0 s w' Hrun.
  destruct (pollRequest net client id) as [err|req] eqn:Hreq.
  - unfold PollTranscript in Hrun. rewrite Hreq in Hrun. discriminate.
  - rewrite (PollTranscript_loop scan net client id pollSettings req Hreq) in Hrun.
    destruct (pollLoop_inv _ _ _ _ _ _ _ _ _ Hrun) as [n [w [_ [_ Hlast]]]].
    apply pollLoop_last in Hlast.
    destruct Hlast as [[_ [_ Hr]] | [_ [[e [_ Hr]] | [[resp [e [_ [_ Hr]]]]
                      | [[resp [data [_ [_ [_ Hr]]]]]
                        | [resp [data [Hdo [Hdata [Hst Hr]]]]]]]]]];
      try discriminate Hr.
    injection Hr as ->. exists req, w, resp, data. repeat split; assumption.
Qed.

Lemma PollTranscript_success_is_completed_witness :
  exists req w resp data,
    pollRequest (handler 200 completedBody) testClient jobId = inr req
    /\ Do (handler 200 completedBody) req w
       = (inr resp,
          {| now := 1000000; sent := [testPollRequest]; slept := [] |})
    /\ getData json.scanner resp = inr data
    /\ Status data = "completed"
    /\ spoken = Text data.
Proof.
  apply (PollTranscript_success_is_completed json.scanner (handler 200 completedBody)
           testClient jobId None 1 start spoken
           {| now := 1000000; sent := [testPollRequest]; slept := [] |}).
  vm_compute. reflexivity.
Defined.

(** X16: the causes of an error of [PollTranscript] are five: the request
    could not be built; a round started at or after the deadline; the
    transport failed; the decoder refused a response; a response decoded to
    the status [error]. In the last three cases the error comes from the
    last call made. *)
Theorem PollTranscript_error_causes :
  forall scan net client id pollSettings fuel w0 s err w',
    PollTranscript scan net client id pollSettings fuel w0 = Some ((s, Some err), w') ->
    pollRequest net client id = inl err
    \/ exists req,
        pollRequest net client id = inr req
        /\ ((err = errorString
                     ("timeout, transcription not finished in "
                        ++ time.Duration_String (timeout (orDefault pollSettings)))
             /\ time.Before (now w') (now w0 + timeout (orDefault pollSettings)) = false)
            \/ (exists w, Do net req w = (inl err, w'))
            \/ (exists w resp,
                   Do net req w = (inr resp, w')
                   /\ getData (T := TranscriptResponse) scan resp = inl err)
            \/ (exists w resp data,
                   Do net req w = (inr resp, w')
                   /\ getData scan resp = inr data
                   /\ Status data = "error"
                   /\ err = errorString (Error data))).
Proof.
  intros scan net client id pollSettings fuel w0 s err w' Hrun.
  destruct (pollRequest net client id) as [e|req] eqn:Hreq.
  - unfold PollTranscript in Hrun. rewrite Hreq in Hrun.
    injection Hrun as _ <- _. left. reflexivity.
  - right. exists req. split; [reflexivity|].
    rewrite (PollTranscript_loop scan net client id pollSettings req Hreq) in Hrun.
    destruct (pollLoop_inv _ _ _ _ _ _ _ _ _ Hrun) as [n [w [_ [_ Hlast]]]].
    apply pollLoop_last in Hlast.
    destruct Hlast as [[Hlate [Hw Hr]] | [_ [[e [Hdo Hr]] | [[resp [e [Hdo [Hdata Hr]]]]
                      | [[resp [data [Hdo [Hdata [Hst Hr]]]]]
                        | [resp [data [_ [_ [_ Hr]]]]]]]]]];
      try discriminate Hr; injection Hr as _ Herr; subst err.
    + left. subst w'. split; [reflexivity | exact Hlate].
    + right. left. exists w. exact Hdo.
    + right. right. left. exists w, resp. split; assumption.
    + right. right. right. exists w, resp, data. repeat split; assumption.
Qed.

(** TestPollTranscribeBadHttpStatus: the decoder refuses the response. *)
Lemma PollTranscript_error_causes_witness :
  let net := handler 404 "Not Found" in
  let w' := {| now := 1000000; sent := [testPollRequest]; slept := [] |} in
  let err := errorString "Not Found" in
  pollRequest net testClient jobId = inl err
  \/ exists req,
      pollRequest net testClient jobId = inr req
      /\ ((err = errorString
                   ("timeout, transcription not finished in "
                      ++ time.Duration_String (timeout (orDefault None)))
           /\ time.Before (now w') (now start + timeout (orDefault None)) = false)
          \/ (exists w, Do net req w = (inl err, w'))
          \/ (exists w resp,
                 Do net req w = (inr resp, w')
                 /\ getData (T := TranscriptResponse) json.scanner resp = inl err)
          \/ (exists w resp data,
                 Do net req w = (inr resp, w')
                 /\ getData json.scanner resp = inr data
                 /\ Status data = "error"
                 /\ err = errorString (Error data))).
Proof.
  intros net w' err.
  apply (PollTranscript_error_causes json.scanner net testClient jobId None 1 start
           "" err w').
  vm_compute. reflexivity.
Defined.

(** X17: every request of a poll is the one request built at its start,
    every sleep lasts the frequency of the settings, there is never more
    than one sleep per request, and the clock does not go back. *)
Theorem PollTranscript_trace :
  forall scan net client id pollSettings req fuel w0 r w',
    pollRequest net client id = inr req ->
    PollTranscript scan net client id pollSettings fuel w0 = Some (r, w') ->
    exists k j : nat,
      sent w' = (sent w0 ++ repeat req k)%list
      /\ slept w' = (slept w0 ++ repeat (frequency (orDefault pollSettings)) j)%list
      /\ (j <= k)%nat
      /\ now w0 <= now w'.
Proof.
  intros scan net client id pollSettings req fuel w0 r w' Hreq Hrun.
  rewrite (PollTranscript_loop scan net client id pollSettings req Hreq) in Hrun.
  exact (pollLoop_trace _ _ _ _ _ _ _ _ _ Hrun).
Qed.

Lemma PollTranscript_trace_witness :
  let net := scripted [(200, queuedBody); (200, processingBody); (200, completedBody)] in
  let w' := {| now := 5003000000;
               sent := [testPollRequest; testPollRequest; testPollRequest];
               slept := [5000000000] |} in
  exists k j : nat,
    sent w' = (sent start ++ repeat testPollRequest k)%list
    /\ slept w' = (slept start ++ repeat (frequency (orDefault None)) j)%list
    /\ (j <= k)%nat
    /\ now start <= now w'.
Proof.
  intros net w'.
  apply (PollTranscript_trace json.scanner net testClient jobId None testPollRequest
           3 start (spoken, None) w');
    [reflexivity | vm_compute; reflexivity].
Defined.

(** X18: when every call of the transport takes [lag] nanoseconds or more,
    a poll that sends [k] requests has [(k - 1) * lag] below its timeout:
    it sends at most one request more than the timeout holds lags. *)
Theorem PollTranscript_request_bound :
  forall scan net client id pollSettings fuel w0 r w' lag,
    0 < lag ->
    (forall n q, lag <= Z.of_N (http.elapsed (http.RoundTrip net n q))) ->
    PollTranscript scan net client id pollSettings fuel w0 = Some (r, w') ->
    (Z.of_nat (List.length (sent w')) - Z.of_nat (List.length (sent w0)) - 1) * lag
    < Z.max 0 (timeout (orDefault pollSettings)).
Proof.
  intros scan net client id pollSettings fuel w0 r w' lag Hlag Hslow Hrun.
  destruct (pollRequest net client id) as [err|req] eqn:Hreq.
  - unfold PollTranscript in Hrun. rewrite Hreq in Hrun. injection Hrun as _ <-.
    replace (Z.of_nat (List.length (sent w0)) - Z.of_nat (List.length (sent w0)) - 1)
      with (-1) by lia.
    lia.
  - rewrite (PollTranscript_loop scan net client id pollSettings req Hreq) in Hrun.
    destruct (pollLoop_requests _ _ _ _ _ lag Hlag Hslow _ _ _ _ Hrun) as [_ Hbound].
    replace (now w0 + timeout (orDefault pollSettings) - now w0)
      with (timeout (orDefault pollSettings)) in Hbound by lia.
    exact Hbound.
Qed.

(** TestPollTranscribeTimeout against a server 100 milliseconds away, with
    a timeout of 250 milliseconds: 3 requests, and 2 lags are below it. *)
Lemma PollTranscript_request_bound_witness :
  let pollSettings := Some {| frequency := 0; timeout := 250 * time.Millisecond |} in
  let w' := {| now := 300 * time.Millisecond;
               sent := [testPollRequest; testPollRequest; testPollRequest];
               slept := [0; 0; 0] |} in
  (Z.of_nat (List.length (sent w')) - Z.of_nat (List.length (sent start)) - 1)
  * (100 * time.Millisecond)
  < Z.max 0 (timeout (orDefault pollSettings)).
Proof.
  intros pollSettings w'.
  apply (PollTranscript_request_bound json.scanner
           (handlerAfter remoteCall 200 queuedBody) testClient
           jobId pollSettings 4 start
           ("", Some (errorString "timeout, transcription not finished in 250ms")) w'
           (100 * time.Millisecond)).
  - reflexivity.
  - intros n q. simpl. apply Z.le_refl.
  - vm_compute. reflexivity.
Defined.

(** X19: when every call of the transport takes [lag] nanoseconds or more,
    [PollTranscript] returns: one round more than the timeout holds lags is
    enough. *)
Theorem PollTranscript_returns :
  forall scan net client id pollSettings w0 lag fuel,
    0 < lag ->
    (forall n q, lag <= Z.of_N (http.elapsed (http.RoundTrip net n q))) ->
    timeout (orDefault pollSettings) <= Z.of_nat fuel * lag ->
    exists r w', PollTranscript scan net client id pollSettings (S fuel) w0 = Some (r, w').
Proof.
  intros scan net client id pollSettings w0 lag fuel Hlag Hslow Hfuel.
  destruct (pollRequest net client id) as [err|req] eqn:Hreq.
  - unfold PollTranscript. rewrite Hreq. eauto.
  - rewrite (PollTranscript_loop scan net client id pollSettings req Hreq).
    apply (pollLoop_returns _ _ _ _ _ lag Hlag Hslow). lia.
Qed.

(** The defaults against a server whose calls take a second: a minute is
    sixty calls. *)
Lemma PollTranscript_returns_witness :
  let net := {| http.refuses := fun _ _ => None;
                http.RoundTrip := fun _ _ =>
                  {| http.elapsed := 1000000000;
                     http.result := inr {| http.StatusCode := 200;
                                           http.Body := inr queuedBody |} |} |} in
  exists r w', PollTranscript json.scanner net testClient jobId None 61 start = Some (r, w').
Proof.
  intros net.
  apply (PollTranscript_returns json.scanner net testClient jobId None start
           1000000000 60).
  - lia.
  - intros n q. simpl. lia.
  - vm_compute. discriminate.
Defined.

(** ** The test double *)

(** X20: each method of the test double returns the string and the error
    it was built with, whatever its arguments are, and leaves the world as
    it was: it sends nothing and never sleeps. So it can, unlike the client,
    return a string that is not empty together with an error. *)
Theorem NewMock_returns_configured :
  forall uploadFileUrl uploadFileError transcribedText transcribedTextError
         pollText pollError content audioUrl id pollSettings fuel w,
    let client := NewMock uploadFileUrl uploadFileError transcribedText
                    transcribedTextError pollText pollError in
    AssemblyAI.UploadLocalFile client content w = ((uploadFileUrl, uploadFileError), w)
    /\ AssemblyAI.Transcript client audioUrl w
       = ((transcribedText, transcribedTextError), w)
    /\ AssemblyAI.PollTranscript client id pollSettings fuel w
       = Some ((pollText, pollError), w).
Proof.
  intros. repeat split.
Qed.

(** ** Errors are passed on, not retried *)

(** X21: an upload or a submit returns the error of its one call, be it
    the error of the transport or the error of the decoder, unchanged and
    with the empty string; it does not call again. *)
Theorem single_call_error_passed_on :
  forall scan net client call fuel w req outcome w' err,
    isPoll call = false ->
    requestOf net client call = inr req ->
    Do net req w = (outcome, w') ->
    match outcome, call with
    | inl e, _ => e = err
    | inr resp, CallUploadLocalFile _ =>
        getData (T := UploadLocalFileResponse) scan resp = inl err
    | inr resp, _ => getData (T := TranscriptResponse) scan resp = inl err
    end ->
    run scan net client call fuel w = Some (("", Some err), w')
    /\ sent w' = (sent w ++ [req])%list.
Proof.
  intros scan net client call fuel w req outcome w' err Hpoll Hreq Hdo Hfail.
  destruct (Do_sent net req w w' _ Hdo) as [Hsent _]. split; [|exact Hsent].
  destruct call as [content | audioUrl | id pollSettings];
    simpl in Hreq; simpl; try discriminate Hpoll.
  - unfold UploadLocalFile. rewrite Hreq, Hdo.
    destruct outcome as [e|resp]; [subst e; reflexivity|].
    rewrite Hfail. reflexivity.
  - unfold Transcript. rewrite Hreq, Hdo.
    destruct outcome as [e|resp]; [subst e; reflexivity|].
    rewrite Hfail. reflexivity.
Qed.

(** A server that is not there. *)
Lemma single_call_error_passed_on_witness :
  let net := scripted [] in
  exists w',
    run json.scanner net testClient (CallUploadLocalFile "RIFF") 0 start
    = Some (("", Some (ExternalError "connection refused")), w')
    /\ List.length (sent w') = 1%nat.
Proof.
  intros net. eexists.
  pose proof (single_call_error_passed_on json.scanner net testClient
                (CallUploadLocalFile "RIFF") 0 start _
                (inl (ExternalError "connection refused")) _
                (ExternalError "connection refused")
                eq_refl eq_refl eq_refl eq_refl) as [Hrun Hsent].
  split; [exact Hrun|]. rewrite Hsent. reflexivity.
Defined.

(** X22: when, after any number of rounds that went on, the transport
    fails on a call, [PollTranscript] returns the empty string and the
    error of the transport; the failed call is its last one, whatever time
    is left until the deadline. *)
Theorem PollTranscript_transport_error :
  forall scan net client id pollSettings req n w0 w w' err,
    pollRequest net client id = inr req ->
    rounds scan net req (orDefault pollSettings)
      (now w0 + timeout (orDefault pollSettings)) n w0 w ->
    time.Before (now w) (now w0 + timeout (orDefault pollSettings)) = true ->
    Do net req w = (inl err, w') ->
    (forall fuel,
        PollTranscript scan net client id pollSettings (S n + fuel) w0
        = Some (("", Some err), w'))
    /\ sent w' = (sent w ++ [req])%list
    /\ slept w' = slept w.
Proof.
  intros scan net client id pollSettings req n w0 w w' err Hreq Hrounds Hin Hdo.
  destruct (Do_sent net req w w' _ Hdo) as [Hsent [Hslept _]].
  repeat split; try assumption. intros fuel.
  rewrite (PollTranscript_loop scan net client id pollSettings req Hreq).
  replace (S n + fuel)%nat with (n + S fuel)%nat by lia.
  rewrite (pollLoop_rounds _ _ _ _ _ _ _ _ Hrounds).
  eapply pollLoop_transport_error; eassumption.
Qed.

(** A server that goes away after its first answer. *)
Lemma PollTranscript_transport_error_witness :
  let net := scripted [(200, queuedBody)] in
  exists w',
    (forall fuel,
        PollTranscript json.scanner net testClient jobId None (2 + fuel) start
        = Some (("", Some (ExternalError "connection refused")), w'))
    /\ sent w' = [testPollRequest; testPollRequest]
    /\ slept w' = [5000000000].
Proof.
  intros net.
  edestruct (PollTranscript_transport_error json.scanner net testClient jobId None
               testPollRequest 1 start)
    as [Hrun [Hsent Hslept]].
  - reflexivity.
  - run_queued_round. apply rounds_O.
  - reflexivity.
  - reflexivity.
  - eexists. split; [exact Hrun | split; [exact Hsent | exact Hslept]].
Defined.
